(** * The paper-catalog indexing layer of [problem2]

    A shallow embedding of [problem2/load_data.py] (record normalisation,
    keyword extraction, index projection, batch load) and of the read paths of
    [problem2/query_papers.py] and [problem2/api_server.py], together with the
    properties the specification states about them.

    Text is modelled as [string], a sequence of characters with codes below
    256, ordered by code as the store orders its keys.  The tokenizer's
    character classes are pure ASCII, so every character outside them,
    whatever its code, only separates tokens, and every token is ASCII. *)

From Stdlib Require Import Ascii Arith Lia Bool ZifyNat.
From Stdlib Require String.
From stdpp Require Import gmap strings list fin_maps sorting.

Set Warnings "-clear-no-such-hyp,-abstract-large-number".

(** ** Characters and strings *)

Module Chars.

Definition code (c : ascii) : nat := nat_of_ascii c.

Definition is_upper (c : ascii) : bool := (65 <=? code c) && (code c <=? 90).
Definition is_lower (c : ascii) : bool := (97 <=? code c) && (code c <=? 122).
Definition is_digit (c : ascii) : bool := (48 <=? code c) && (code c <=? 57).
Definition is_hyphen (c : ascii) : bool := code c =? 45.

(** [[A-Za-z]] *)
Definition is_alpha (c : ascii) : bool := is_upper c || is_lower c.
(** [[A-Za-z0-9\-]] *)
Definition is_word (c : ascii) : bool := is_alpha c || is_digit c || is_hyphen c.

(** [str.lower] on one character of the tokenizer's alphabet. *)
Definition lower_char (c : ascii) : ascii :=
  if is_upper c then ascii_of_nat (code c + 32) else c.

End Chars.

(** [str.lower()], which on ASCII text folds [A-Z] and nothing else. *)
Fixpoint lower (s : string) : string :=
  match s with
  | EmptyString => EmptyString
  | String c s' => String (Chars.lower_char c) (lower s')
  end.

(** Python's [s[:n]]. *)
Fixpoint str_take (n : nat) (s : string) : string :=
  match n, s with
  | S n', String c s' => String c (str_take n' s')
  | _, _ => EmptyString
  end.

(** [s.replace("Z", "+00:00")]: every occurrence of the character is
    replaced, wherever it stands. *)
Fixpoint replace_Z (s : string) : string :=
  match s with
  | EmptyString => EmptyString
  | String c s' =>
      if Ascii.eqb c "Z" then "+00:00" +:+ replace_Z s' else String c (replace_Z s')
  end.

(** ** Exceptions

    The loader has one [try]/[except]; a computation that may raise is a
    value of [pyres], and [except ValueError] is a match on the exception. *)

Inductive exn : Type := ValueError | OtherError (name : string).

Inductive pyres (A : Type) : Type :=
  | Ok (a : A)
  | Raise (e : exn).
Arguments Ok {A} a.
Arguments Raise {A} e.

Global Instance pyres_ret : MRet pyres := λ A a, Ok a.

Global Instance pyres_bind : MBind pyres := λ A B k m,
  match m with
  | Ok a => k a
  | Raise e => Raise e
  end.

(** A [for] loop whose body may raise: the first exception ends the loop. *)
Fixpoint for_each {S A : Type} (body : S → A → pyres S) (st : S) (l : list A) : pyres S :=
  match l with
  | [] => Ok st
  | x :: l' => st' ← body st x; for_each body st' l'
  end.

(** ** Keyword extraction ([load_data.py], lines 8-14 and 83-91) *)

Definition STOPWORDS : gset string :=
  list_to_set
  [ "the";"a";"an";"and";"or";"but";"in";"on";"at";"to";"for";"of";"with";"by";"from";"up";
    "about";"into";"through";"during";"is";"are";"was";"were";"be";"been";"being";"have";"has";
    "had";"do";"does";"did";"will";"would";"could";"should";"may";"might";"can";"this";"that";
    "these";"those";"we";"our";"use";"using";"based";"approach";"method";"paper";"propose";
    "proposed";"show" ].

(** [re.findall(r"[A-Za-z][A-Za-z0-9\-]*", text)]: a left-to-right scan.
    [cur] is the match in progress, if any.  A match starts at a letter, is
    extended greedily over letters, digits and hyphens, and is emitted at the
    first other character or at the end of the text; characters outside a
    match are skipped. *)
Fixpoint findall_words (cur : option string) (text : string) : list string :=
  match text with
  | EmptyString =>
      match cur with Some w => [w] | None => [] end
  | String c rest =>
      match cur with
      | Some w =>
          if Chars.is_word c then findall_words (Some (w +:+ String c "")) rest
          else w :: findall_words None rest
      | None =>
          if Chars.is_alpha c then findall_words (Some (String c "")) rest
          else findall_words None rest
      end
  end.

Definition tokenize (text : string) : list string :=
  let words := findall_words None text in
  lower <$> words.

(** The predicate of the comprehension
    [[t for t in tokens if t not in STOPWORDS and len(t) >= 3]]. *)
Definition kept (t : string) : Prop := (t ∉ STOPWORDS) ∧ (3 ≤ String.length t).

Global Instance kept_dec t : Decision (kept t).
Proof. unfold kept. apply _. Defined.

(** [collections.Counter]: a dict from element to count.  A Python dict keeps
    its keys in insertion order, which [most_common] observes, so the counter
    is an association list in order of first insertion. *)
Abbreviation counter := (list (string * nat)).

Fixpoint counter_incr (w : string) (c : counter) : counter :=
  match c with
  | [] => [(w, 1)]
  | (k, n) :: c' =>
      if decide (k = w) then (k, S n) :: c' else (k, n) :: counter_incr w c'
  end.

(** [Counter(iterable)]: one increment per element, left to right. *)
Definition Counter (l : list string) : counter :=
  foldl (λ c w, counter_incr w c) [] l.

(** [sorted(items, key=itemgetter(1), reverse=True)]: a stable sort by
    descending count, written as an insertion sort.  An element is placed
    before the first element whose count does not exceed its own, so entries
    of equal count keep their relative order. *)
Fixpoint insert_desc (x : string * nat) (l : counter) : counter :=
  match l with
  | [] => [x]
  | y :: l' => if x.2 <? y.2 then y :: insert_desc x l' else x :: y :: l'
  end.

Definition sorted_desc (c : counter) : counter := foldr insert_desc [] c.

(** [Counter.most_common(n)], i.e. [heapq.nlargest(n, items, key=count)],
    which is specified as [sorted(items, key=count, reverse=True)[:n]]. *)
Definition most_common (n : nat) (c : counter) : counter := take n (sorted_desc c).

Definition extract_keywords (abstract : string) (topk : nat) : list string :=
  let tokens := tokenize abstract in
  let filtered := filter kept tokens in
  let counts := Counter filtered in
  (most_common topk counts).*1.

(** ** Dates ([load_data.py], lines 93-100)

    [iso_to_date] only observes the calendar fields of the parsed
    [datetime]: [strftime("%Y-%m-%d")] prints them as they are, without
    converting the offset. *)

Record datetime : Type := { year : nat; month : nat; day : nat }.

(** The ranges the [datetime] constructor admits ([MINYEAR] is 1, [MAXYEAR]
    is 9999). *)
Definition valid_date (dt : datetime) : Prop :=
  (1 ≤ year dt ≤ 9999) ∧ (1 ≤ month dt ≤ 12) ∧ (1 ≤ day dt ≤ 31).

Definition digit_char (n : nat) : ascii := ascii_of_nat (48 + n mod 10).

(** [%m] and [%d]: two digits, zero-padded. *)
Definition dec2 (n : nat) : string :=
  String (digit_char (n / 10)) (String (digit_char n) "").

(** The decimal numeral of [n], without padding; [fuel] bounds the number
    of digits. *)
Fixpoint dec_fuel (fuel n : nat) : string :=
  match fuel with
  | 0 => ""
  | S fuel' =>
      (if n <? 10 then "" else dec_fuel fuel' (n / 10)) +:+ String (digit_char n) ""
  end.

(** [%Y] as the C library's [strftime] prints it, which is what
    [datetime.strftime] hands the format to: the year in decimal, not padded
    to four digits, so the year 99 is printed as [99]. *)
Definition dec (n : nat) : string := dec_fuel (S n) n.

(** [dt.strftime("%Y-%m-%d")] *)
Definition strftime_ymd (dt : datetime) : string :=
  dec (year dt) +:+ "-" +:+ dec2 (month dt) +:+ "-" +:+ dec2 (day dt).




(** The shape [YYYY-MM-DD]: ten characters, digits around two hyphens. *)
Definition is_ymd (s : string) : bool :=
  match String.list_ascii_of_string s with
  | [y1; y2; y3; y4; h1; m1; m2; h2; d1; d2] =>
      forallb Chars.is_digit [y1; y2; y3; y4; m1; m2; d1; d2]
      && Chars.is_hyphen h1 && Chars.is_hyphen h2
  | _ => false
  end.

(** ** Input records and index items ([load_data.py], lines 126-193) *)

(** One element of the input array.  A field is [None] when the key is
    absent or holds JSON [null]; [p.get] returns [None] in both cases. *)
Record RawPaper : Type := {
  r_arxiv_id : option string;
  r_id : option string;
  r_title : option string;
  r_authors : option (list string);
  r_abstract : option string;
  r_categories : option (list string);
  r_published : option string;
  r_updated : option string;
  r_date : option string;
}.

(** Truthiness of [p.get(key)] for a string field. *)
Definition truthy (x : option string) : bool :=
  match x with
  | Some s => negb (String.eqb s "")
  | None => false
  end.

(** [a or b] *)
Definition py_or (a b : option string) : option string :=
  if truthy a then a else b.

Definition safe_str (x : option string) : string := default "" x.

(** [p.get(key) or []] for a list field. *)
Definition or_empty (x : option (list string)) : list string := default [] x.

(** The dictionary [core] that every item spreads into itself. *)
Record Core : Type := {
  arxiv_id : string;
  title : string;
  authors : list string;
  abstract : string;
  categories : list string;
  keywords : list string;
  published : string;
}.

(** An item as handed to [put_item]: the key attributes, the attributes of
    the three secondary indexes where present, and the payload. *)
Record Item : Type := {
  PK : string;
  SK : string;
  GSI1PK : option string;
  GSI1SK : option string;
  GSI2PK : option string;
  GSI2SK : option string;
  GSI3PK : option string;
  GSI3SK : option string;
  core : Core;
}.

Definition paper_item (c : Core) (date_str : string) : Item :=
  {| PK := "PAPER#" +:+ arxiv_id c; SK := "A";
     GSI1PK := None; GSI1SK := None;
     GSI2PK := Some ("PAPER#" +:+ arxiv_id c); GSI2SK := Some date_str;
     GSI3PK := None; GSI3SK := None;
     core := c |}.

Definition cat_item (c : Core) (date_str : string) (cat : string) : Item :=
  {| PK := "CATEGORY#" +:+ cat; SK := date_str +:+ "#" +:+ arxiv_id c;
     GSI1PK := None; GSI1SK := None;
     GSI2PK := None; GSI2SK := None;
     GSI3PK := None; GSI3SK := None;
     core := c |}.

Definition a_item (c : Core) (date_str : string) (author : string) : Item :=
  {| PK := "AUTHOR#" +:+ author; SK := date_str +:+ "#" +:+ arxiv_id c;
     GSI1PK := Some ("AUTHOR#" +:+ author);
     GSI1SK := Some (date_str +:+ "#" +:+ arxiv_id c);
     GSI2PK := None; GSI2SK := None;
     GSI3PK := None; GSI3SK := None;
     core := c |}.

Definition k_item (c : Core) (date_str : string) (kw : string) : Item :=
  {| PK := "KEYWORD#" +:+ kw; SK := date_str +:+ "#" +:+ arxiv_id c;
     GSI1PK := None; GSI1SK := None;
     GSI2PK := None; GSI2SK := None;
     GSI3PK := Some ("KEYWORD#" +:+ kw);
     GSI3SK := Some (date_str +:+ "#" +:+ arxiv_id c);
     core := c |}.

(** ** The table and the load statistics *)

(** The table: items under their composite primary key [(PK, SK)]. *)
Abbreviation table := (gmap (string * string) Item).

Definition item_key (it : Item) : string * string := (PK it, SK it).

(** [stats = defaultdict(int)] *)
Abbreviation counters := (gmap string nat).

Definition stat (k : string) (s : counters) : nat := default 0 (s !! k).

(** [stats[k] += 1] *)
Definition stat_incr (k : string) (s : counters) : counters := <[k := S (stat k s)]> s.

(** The state the loop of [main] works on.  [written] is the sequence of
    [bw.put_item] calls so far.  The batch writer is opened with
    [overwrite_by_pkeys=["PK","SK"]] and the store overwrites on an equal
    key, so once the writer is flushed [tbl] holds, for every key, the item
    of the last call with that key. *)
Record LoadState : Type := {
  tbl : table;
  written : list Item;
  stats : counters;
  total_papers : nat;
}.

Definition init_state : LoadState :=
  {| tbl := ∅; written := []; stats := ∅; total_papers := 0 |}.

(** [bw.put_item(Item=it); stats[k] += 1] *)
Definition put_item (k : string) (st : LoadState) (it : Item) : LoadState :=
  {| tbl := <[item_key it := it]> (tbl st);
     written := written st ++ [it];
     stats := stat_incr k (stats st);
     total_papers := total_papers st |}.

Definition total_items (st : LoadState) : nat :=
  stat "paper_id_items" (stats st) + stat "category_items" (stats st)
  + stat "author_items" (stats st) + stat "keyword_items" (stats st).

(** The fields read at the top of the loop body (lines 128-133). *)
Definition norm_id (p : RawPaper) : string := safe_str (py_or (r_arxiv_id p) (r_id p)).
Definition norm_title (p : RawPaper) : string := safe_str (r_title p).
Definition norm_published (p : RawPaper) : string :=
  safe_str (py_or (py_or (r_published p) (r_updated p)) (r_date p)).

(** The guard of line 134: [not arxiv_id or not title or not published_iso]. *)
Definition skipped (p : RawPaper) : bool :=
  String.eqb (norm_id p) "" || String.eqb (norm_title p) ""
  || String.eqb (norm_published p) "".

(** The dictionary [core] of lines 140-148. *)
Definition build_core (p : RawPaper) : Core :=
  {| arxiv_id := norm_id p;
     title := norm_title p;
     authors := or_empty (r_authors p);
     abstract := safe_str (r_abstract p);
     categories := or_empty (r_categories p);
     keywords := extract_keywords (safe_str (r_abstract p)) 10;
     published := norm_published p |}.

Section Loader.

(** [datetime.fromisoformat] belongs to the Python library, and what it
    accepts differs between versions of it; the loader is defined over any
    parser. *)
Variable fromisoformat : string → pyres datetime.

Definition iso_to_date (iso_str : string) : pyres string :=
  match fromisoformat (replace_Z iso_str) with
  | Ok dt => Ok (strftime_ymd dt)
  | Raise ValueError => Ok (str_take 10 iso_str)
  | Raise e => Raise e
  end.

(** One iteration of [for p in papers] (lines 128-195). *)
Definition main_step (st : LoadState) (p : RawPaper) : pyres LoadState :=
  if skipped p then Ok st
  else
    date_str ← iso_to_date (norm_published p);
    let c := build_core p in
    let st := put_item "paper_id_items" st (paper_item c date_str) in
    let st := foldl (λ st cat, put_item "category_items" st (cat_item c date_str cat))
                st (categories c) in
    let st := foldl (λ st author, put_item "author_items" st (a_item c date_str author))
                st (authors c) in
    let st := foldl (λ st kw, put_item "keyword_items" st (k_item c date_str kw))
                st (keywords c) in
    Ok {| tbl := tbl st; written := written st; stats := stats st;
          total_papers := S (total_papers st) |}.

(** The loop of [main] over the input array. *)
Definition main_loop (st : LoadState) (papers : list RawPaper) : pyres LoadState :=
  for_each main_step st papers.

End Loader.

(** ** A reference parser

    An instance of the parser the loader is defined over, for running the
    loader on concrete input.  It accepts the grammar documented for
    [datetime.fromisoformat] in Python 3.7 to 3.10,
    [YYYY-MM-DD[*HH[:MM[:SS[.fff[fff]]]][+HH:MM[:SS[.ffffff]]]]], where [*] is
    any single character, and raises [ValueError] on everything else. *)

Module RefParser.

Definition digit (c : ascii) : option nat :=
  if Chars.is_digit c then Some (Chars.code c - 48) else None.

Definition num2 (a b : ascii) : option nat :=
  x ← digit a; y ← digit b; Some (10 * x + y).

Definition below (bound : nat) (a b : ascii) : bool :=
  match num2 a b with
  | Some n => n <? bound
  | None => false
  end.

Definition is_leap (y : nat) : bool :=
  (y mod 4 =? 0) && (negb (y mod 100 =? 0) || (y mod 400 =? 0)).

Definition days_in_month (y m : nat) : nat :=
  match m with
  | 2 => if is_leap y then 29 else 28
  | 4 | 6 | 9 | 11 => 30
  | _ => 31
  end.

(** [YYYY-MM-DD], within the ranges the [datetime] constructor checks. *)
Definition parse_date (l : list ascii) : option datetime :=
  match l with
  | [y1; y2; y3; y4; h1; m1; m2; h2; d1; d2] =>
      hi ← num2 y1 y2; lo ← num2 y3 y4; m ← num2 m1 m2; d ← num2 d1 d2;
      let y := 100 * hi + lo in
      if Chars.is_hyphen h1 && Chars.is_hyphen h2
         && (1 <=? y) && (1 <=? m) && (m <=? 12) && (1 <=? d) && (d <=? days_in_month y m)
      then Some {| year := y; month := m; day := d |}
      else None
  | _ => None
  end.

Definition is_colon (c : ascii) : bool := Ascii.eqb c ":".
Definition is_dot (c : ascii) : bool := Ascii.eqb c ".".
Definition is_sign (c : ascii) : bool := Ascii.eqb c "+" || Ascii.eqb c "-".

(** [.fff] or [.ffffff]; [short] says whether the three-digit form is allowed. *)
Definition fraction_ok (short : bool) (l : list ascii) : bool :=
  match l with
  | [] => true
  | dot :: ds =>
      is_dot dot && forallb Chars.is_digit ds
      && ((length ds =? 6) || (short && (length ds =? 3)))
  end.

(** [HH[:MM[:SS[fraction]]]]; [full] asks for at least [HH:MM]. *)
Definition hh_mm_ss_ok (full short : bool) (l : list ascii) : bool :=
  match l with
  | [h1; h2] => negb full && below 24 h1 h2
  | [h1; h2; c1; m1; m2] => is_colon c1 && below 24 h1 h2 && below 60 m1 m2
  | h1 :: h2 :: c1 :: m1 :: m2 :: c2 :: s1 :: s2 :: frac =>
      is_colon c1 && is_colon c2 && below 24 h1 h2 && below 60 m1 m2 && below 60 s1 s2
      && fraction_ok short frac
  | _ => false
  end.

(** The time of day up to the first sign, then the offset after it. *)
Fixpoint time_ok (seen : list ascii) (l : list ascii) : bool :=
  match l with
  | [] => hh_mm_ss_ok false true (reverse seen)
  | c :: l' =>
      if is_sign c then hh_mm_ss_ok false true (reverse seen) && hh_mm_ss_ok true false l'
      else time_ok (c :: seen) l'
  end.

Definition parse (s : string) : option datetime :=
  let l := String.list_ascii_of_string s in
  dt ← parse_date (take 10 l);
  match drop 10 l with
  | [] | [_] => Some dt
  | _ :: tstr => if time_ok [] tstr then Some dt else None
  end.

Definition fromisoformat (s : string) : pyres datetime :=
  match parse s with
  | Some dt => Ok dt
  | None => Raise ValueError
  end.

End RefParser.


(** ** The store's query operation ([table.query])

    Strings are ordered by their bytes, as the store orders sort keys. *)

Abbreviation str_le := String.le.

(** The stored entries, ascending by the sort key [sk]. *)
Definition ascending {A : Type} (sk : A → string) (l : list A) : list A :=
  merge_sort (λ x y, str_le (sk x) (sk y)) l.

(** A query on the base table: [Key('PK').eq(pk) & Key('SK').between(lo, hi)],
    ascending by [SK]. *)
Definition query_between (t : table) (pk lo hi : string) : list Item :=
  let hits := filter (λ e : (string * string) * Item,
                        e.1.1 = pk ∧ str_le lo e.1.2 ∧ str_le e.1.2 hi)
                     (map_to_list t) in
  (ascending (λ e, e.1.2) hits).*2.

(** A query on a secondary index with key attributes [ipk] and [isk]:
    [Key(ipk).eq(pk)].  An item is in the index when it has both key
    attributes; the hits come ascending by the index's sort key. *)
Definition query_index (ipk isk : Item → option string) (t : table) (pk : string)
  : list Item :=
  let hits := filter (λ it, ipk it = Some pk ∧ is_Some (isk it)) (map_to_list t).*2 in
  ascending (λ it, default "" (isk it)) hits.

(** ** The query functions ([query_papers.py]) and the routes that repeat
    them ([api_server.py])

    Of the result envelope the elapsed time is left out. *)

Inductive Param : Type := PStr (s : string) | PInt (n : nat).

Record Envelope : Type := {
  query_type : string;
  parameters : list (string * Param);
  results : list Item;
  count : nat;
}.

(** [get_paper_by_id] (lines 51-66) *)
Definition get_paper_by_id (t : table) (arxiv_id : string) : Envelope :=
  let items := query_index GSI2PK GSI2SK t ("PAPER#" +:+ arxiv_id) in
  let item := head items in
  {| query_type := "get_paper_by_id";
     parameters := [("arxiv_id", PStr arxiv_id)];
     results := match item with Some it => [it] | None => [] end;
     count := match item with Some _ => 1 | None => 0 end |}.

(** [query_papers_in_date_range] (lines 68-82) *)
Definition query_papers_in_date_range (t : table) (category start_date end_date : string)
  : Envelope :=
  let items := query_between t ("CATEGORY#" +:+ category)
                 (start_date +:+ "#") (end_date +:+ "#zzzzzzz") in
  {| query_type := "papers_in_date_range";
     parameters := [("category", PStr category); ("start_date", PStr start_date);
                    ("end_date", PStr end_date)];
     results := items;
     count := length items |}.

(** [query_papers_by_keyword] (lines 84-100): [ScanIndexForward=False] and
    [Limit=limit], for a limit of at least one. *)
Definition query_papers_by_keyword (t : table) (keyword : string) (limit : nat)
  : Envelope :=
  let hits := query_index GSI3PK GSI3SK t ("KEYWORD#" +:+ lower keyword) in
  let items := take limit (reverse hits) in
  {| query_type := "papers_by_keyword";
     parameters := [("keyword", PStr keyword); ("limit", PInt limit)];
     results := items;
     count := length items |}.

(** What a route of the HTTP front end answers: a status and a body. *)
Inductive Response : Type :=
  | RespError (status : nat) (message : string)
  | RespItem (status : nat) (item : Item)
  | RespPapers (status : nat) (papers : list Item) (n : nat).

(** [GET /papers/{arxiv_id}] (lines 62-71) *)
Definition route_paper (t : table) (arxiv_id : string) : Response :=
  let items := query_index GSI2PK GSI2SK t ("PAPER#" +:+ arxiv_id) in
  match items with
  | [] => RespError 404 "not found"
  | it :: _ => RespItem 200 it
  end.

(** [GET /papers/search?category=..&start=..&end=..] (lines 74-85) *)
Definition route_search (t : table) (category start end_ : option string) : Response :=
  if negb (truthy category) || negb (truthy start) || negb (truthy end_)
  then RespError 400 "missing category/start/end"
  else
    let items := query_between t ("CATEGORY#" +:+ safe_str category)
                   (safe_str start +:+ "#") (safe_str end_ +:+ "#zzzzzzz") in
    RespPapers 200 items (length items).

(** ** Vocabulary of the properties *)

(** How often [w] occurs in [l]. *)
Definition freq (w : string) (l : list string) : nat := length (filter (w =.) l).

(** The position of the first occurrence of [w] in [l]; [length l] when
    there is none. *)
Fixpoint first_index (w : string) (l : list string) : nat :=
  match l with
  | [] => 0
  | x :: l' => if decide (x = w) then 0 else S (first_index w l')
  end.

(** [a] ranks before [b]: it is more frequent in [l], or as frequent and
    first seen earlier. *)
Definition ranks_before (l : list string) (a b : string) : Prop :=
  freq b l < freq a l ∨ (freq a l = freq b l ∧ first_index a l < first_index b l).

(** Two orders on the entries of a counter, for a position [pos] of the
    keys: by position, and by descending count with ties by position. *)
Definition by_position (pos : string → nat) (x y : string * nat) : Prop :=
  pos x.1 < pos y.1.

Definition by_count_then_position (pos : string → nat) (x y : string * nat) : Prop :=
  y.2 < x.2 ∨ (x.2 = y.2 ∧ pos x.1 < pos y.1).

(** The distinct elements of [l], in order of first occurrence. *)
Definition firsts (l : list string) : list string :=
  foldl (λ K w, if decide (w ∈ K) then K else K ++ [w]) [] l.

(** The items of one record in the order [main] writes them: the paper
    item, then one item per category, per author and per keyword. *)
Definition project (c : Core) (date_str : string) : list Item :=
  paper_item c date_str
  :: (cat_item c date_str <$> categories c)
  ++ (a_item c date_str <$> authors c)
  ++ (k_item c date_str <$> keywords c).

(** Writing a sequence of items to the table, each overwriting what is
    stored under its key. *)
Definition put_all (t : table) (items : list Item) : table :=
  foldl (λ t it, <[item_key it := it]> t) t items.

(** What one record contributes to the table: nothing when it is skipped,
    else its items under the date [iso_to_date] returns. *)
Definition projection (fromisoformat : string → pyres datetime) (p : RawPaper)
  : list Item :=
  if skipped p then []
  else match iso_to_date fromisoformat (norm_published p) with
       | Ok date_str => project (build_core p) date_str
       | Raise _ => []
       end.

(** Every item of the table is stored under its own [(PK, SK)]. *)
Definition well_keyed (t : table) : Prop := map_Forall (λ k it, k = item_key it) t.

Global Instance well_keyed_dec t : Decision (well_keyed t).
Proof. unfold well_keyed. apply _. Defined.

(** A record with an id that sorts behind the suffix [zzzzzzz]. *)
Definition tilde_paper : RawPaper :=
  {| r_arxiv_id := Some "~2301.00001";
     r_id := None;
     r_title := Some "Graph Neural Networks for Traffic";
     r_authors := None;
     r_abstract := None;
     r_categories := Some ["cs.LG"];
     r_published := Some "2023-01-15T10:30:00Z";
     r_updated := None;
     r_date := None |}.

(** A record whose date does not parse; the date derived for it is the
    raw string, [2023-01 15]. *)
Definition unparsed_date_paper : RawPaper :=
  {| r_arxiv_id := Some "2301.00002";
     r_id := None;
     r_title := Some "Graph Neural Networks for Traffic";
     r_authors := None;
     r_abstract := None;
     r_categories := Some ["cs.LG"];
     r_published := Some "2023-01 15";
     r_updated := None;
     r_date := None |}.

(** The state a load of [papers] into the empty table ends in, under the
    reference parser. *)
Definition loaded (papers : list RawPaper) : LoadState :=
  match main_loop RefParser.fromisoformat init_state papers with
  | Ok st => st
  | Raise _ => init_state
  end.

(** The §8 example record of the specification. *)
Definition example_paper : RawPaper :=
  {| r_arxiv_id := None;
     r_id := Some "2301.00001";
     r_title := Some "Graph Neural Networks for Traffic";
     r_authors := Some ["A. Lee"; "B. Chen"];
     r_abstract :=
       Some "graph neural networks traffic graph prediction traffic networks graph";
     r_categories := Some ["cs.LG"];
     r_published := Some "2023-01-15T10:30:00Z";
     r_updated := None;
     r_date := None |}.

(** ** The other queries ([query_papers.py], lines 18-49) *)

(** A query on the base table with [Key('PK').eq(pk)],
    [ScanIndexForward=False] and [Limit=limit], for a limit of at least
    one: the partition from its greatest sort key down, cut after [limit]
    items.  As in the queries above, the answer is taken to fit one page of
    the store; the functions read no second page. *)
Definition query_newest (t : table) (pk : string) (limit : nat) : list Item :=
  let hits := filter (λ e : (string * string) * Item, e.1.1 = pk) (map_to_list t) in
  (take limit (reverse (ascending (λ e, e.1.2) hits))).*2.

(** [query_recent_in_category] (lines 18-33) *)
Definition query_recent_in_category (t : table) (category : string) (limit : nat)
  : Envelope :=
  let items := query_newest t ("CATEGORY#" +:+ category) limit in
  {| query_type := "recent_in_category";
     parameters := [("category", PStr category); ("limit", PInt limit)];
     results := items;
     count := length items |}.

(** [query_papers_by_author] (lines 35-49) *)
Definition query_papers_by_author (t : table) (author_name : string) : Envelope :=
  let items := query_index GSI1PK GSI1SK t ("AUTHOR#" +:+ author_name) in
  {| query_type := "papers_by_author";
     parameters := [("author_name", PStr author_name)];
     results := items;
     count := length items |}.

(** ** The closing report of the loader ([load_data.py], lines 197-207) *)

(** The quotient [a / b] of two counts.  Python's value is the float nearest
    to the fraction; the report keeps the fraction. *)
Record Ratio : Type := { numer : nat; denom : nat }.

(** [a / b], which raises on a zero divisor. *)
Definition truediv (a b : nat) : pyres Ratio :=
  if b =? 0 then Raise (OtherError "ZeroDivisionError")
  else Ok {| numer := a; denom := b |}.

(** The numbers the report prints, in the order it computes them. *)
Record Report : Type := {
  loaded_papers : nat;
  created_items : nat;
  factor : Ratio;
  category_avg : Ratio;
  author_avg : Ratio;
  keyword_avg : Ratio;
  paper_avg : Ratio;
}.

Definition report (st : LoadState) : pyres Report :=
  let items := total_items st in
  let factor :=
    if total_papers st =? 0 then {| numer := 0; denom := 1 |}
    else {| numer := items; denom := total_papers st |} in
  c ← truediv (stat "category_items" (stats st)) (total_papers st);
  a ← truediv (stat "author_items" (stats st)) (total_papers st);
  k ← truediv (stat "keyword_items" (stats st)) (total_papers st);
  p ← truediv (stat "paper_id_items" (stats st)) (total_papers st);
  Ok {| loaded_papers := total_papers st; created_items := items; factor := factor;
        category_avg := c; author_avg := a; keyword_avg := k; paper_avg := p |}.

(** [main] from the loop on: the load into the empty table, then the
    report. *)
Definition main (fromisoformat : string → pyres datetime) (papers : list RawPaper)
  : pyres Report :=
  st ← main_loop fromisoformat init_state papers; report st.

(** ** The HTTP front end ([api_server.py], lines 28-102) *)

(** [s.count("/")] *)
Fixpoint count_slash (s : string) : nat :=
  match s with
  | EmptyString => 0
  | String c s' => (if Ascii.eqb c "/" then 1 else 0) + count_slash s'
  end.

(** Python's [s[n:]]. *)
Fixpoint str_drop (n : nat) (s : string) : string :=
  match n, s with
  | S n', String _ s' => str_drop n' s'
  | _, _ => s
  end.

(** The text of [s] behind the first occurrence of [sep], if there is one. *)
Fixpoint after_first (sep s : string) : option string :=
  if String.prefix sep s then Some (str_drop (String.length sep) s)
  else match s with
       | EmptyString => None
       | String _ s' => after_first sep s'
       end.

(** The text of [s] before the first occurrence of [sep], all of [s] if
    there is none. *)
Fixpoint before_first (sep s : string) : string :=
  if String.prefix sep s then EmptyString
  else match s with
       | EmptyString => EmptyString
       | String c s' => String c (before_first sep s')
       end.

(** [s.split(sep)[1]] for a non-empty [sep]: the piece between the first
    and the second occurrence of [sep]; without an occurrence the list has
    one element and the index is out of range. *)
Definition split_1 (sep s : string) : pyres string :=
  match after_first sep s with
  | Some rest => Ok (before_first sep rest)
  | None => Raise (OtherError "IndexError")
  end.

(** The limit as the store's client accepts it: a [Limit] below one is
    refused before the request is sent. *)
Definition checked_limit (limit : Z) : pyres nat :=
  if (limit <? 1)%Z then Raise (OtherError "ParamValidationError")
  else Ok (Z.to_nat limit).

Section Api.

(** [urllib.parse.unquote], [int] on a string and [str] on an exception
    belong to the Python library; the handler is defined over them.  [qs]
    maps a key of the query string to its first value. *)
Variable unquote : string → string.
Variable to_int : string → pyres Z.
Variable str_exn : exn → string.

(** The body of the [try] in [do_GET] (lines 30-100). *)
Definition handle (t : table) (path : string) (qs : gmap string string)
  : pyres Response :=
  if decide (path = "/papers/recent") then
    let category := qs !! "category" in
    limit ← to_int (default "20" (qs !! "limit"));
    if negb (truthy category) then Ok (RespError 400 "missing category")
    else
      n ← checked_limit limit;
      let items := query_newest t ("CATEGORY#" +:+ safe_str category) n in
      Ok (RespPapers 200 items (length items))
  else if String.prefix "/papers/author/" path then
    raw ← split_1 "/papers/author/" path;
    let author_name := unquote raw in
    let items := query_index GSI1PK GSI1SK t ("AUTHOR#" +:+ author_name) in
    Ok (RespPapers 200 items (length items))
  else if String.prefix "/papers/" path && (count_slash path =? 2)
          && negb (String.prefix "/papers/author/" path)
          && negb (String.prefix "/papers/keyword/" path) then
    raw ← split_1 "/papers/" path;
    let arxiv_id := unquote raw in
    Ok (route_paper t arxiv_id)
  else if decide (path = "/papers/search") then
    Ok (route_search t (qs !! "category") (qs !! "start") (qs !! "end"))
  else if String.prefix "/papers/keyword/" path then
    raw ← split_1 "/papers/keyword/" path;
    let keyword := lower (unquote raw) in
    limit ← to_int (default "20" (qs !! "limit"));
    n ← checked_limit limit;
    let items :=
      take n (reverse (query_index GSI3PK GSI3SK t ("KEYWORD#" +:+ keyword))) in
    Ok (RespPapers 200 items (length items))
  else Ok (RespError 404 "route not found").

(** [do_GET]: what the handler answers, and 500 with the text of the
    exception when it raises. *)
Definition do_GET (t : table) (path : string) (qs : gmap string string) : Response :=
  match handle t path qs with
  | Ok r => r
  | Raise e => RespError 500 (str_exn e)
  end.

End Api.

(** ** The data directory of the transit loader ([problem1/load_data.py],
    lines 99-108) *)

Section DataDir.

(** [os.path.abspath], [os.path.exists], [os.path.isdir] and
    [os.path.join(os.getcwd(), "data")] read the file system and the working
    directory; the function is defined over them. *)
Variable abspath : string → string.
Variable path_exists : string → bool.
Variable path_isdir : string → bool.
Variable cwd_data : string.

Definition candidates (base_dir : string) : list string :=
  [base_dir; "./data"; "data"; "./datasets"; "datasets"; "./metro_data"; "metro_data"].

(** The [for] loop: the first candidate that is an existing directory. *)
Fixpoint first_dir (ds : list string) : option string :=
  match ds with
  | [] => None
  | d :: ds' =>
      let d := abspath d in
      if path_exists d && path_isdir d then Some d else first_dir ds'
  end.

Definition resolve_data_dir (base_dir : string) : pyres string :=
  match first_dir (candidates base_dir) with
  | Some d => Ok d
  | None =>
      let alt := cwd_data in
      if path_exists alt then Ok alt else Raise (OtherError "FileNotFoundError")
  end.

End DataDir.

(** ** Reference instances of the front end's library functions

    Instances of [unquote], [int] and [str] for running the handler on
    concrete input: percent-decoding of [%XX] to the character of that
    code (which is [urllib.parse.unquote] wherever the codes are below
    128), the decimal numerals with an optional minus sign, and the name of
    the exception. *)

Module RefLib.

Definition hex (c : ascii) : option nat :=
  let n := Chars.code c in
  if Chars.is_digit c then Some (n - 48)
  else if (97 <=? n) && (n <=? 102) then Some (n - 87)
  else if (65 <=? n) && (n <=? 70) then Some (n - 55)
  else None.

Fixpoint unquote (s : string) : string :=
  match s with
  | EmptyString => EmptyString
  | String c s' =>
      if Ascii.eqb c "%" then
        match s' with
        | String a (String b rest) =>
            match hex a, hex b with
            | Some x, Some y => String (ascii_of_nat (16 * x + y)) (unquote rest)
            | _, _ => String c (unquote s')
            end
        | _ => String c (unquote s')
        end
      else String c (unquote s')
  end.

Fixpoint digits (acc : Z) (s : string) : option Z :=
  match s with
  | EmptyString => Some acc
  | String c s' =>
      if Chars.is_digit c
      then digits (10 * acc + Z.of_nat (Chars.code c - 48))%Z s'
      else None
  end.

Definition to_int (s : string) : pyres Z :=
  let parsed :=
    match s with
    | EmptyString => None
    | String c s' =>
        if Ascii.eqb c "-"
        then (if String.eqb s' "" then None else Z.opp <$> digits 0 s')
        else digits 0 s
    end in
  match parsed with
  | Some n => Ok n
  | None => Raise ValueError
  end.

Definition str_exn (e : exn) : string :=
  match e with
  | ValueError => "ValueError"
  | OtherError name => name
  end.

(** A file system with the one directory [/app/data], seen from the working
    directory [/app]. *)
Definition abspath (d : string) : string :=
  if String.prefix "/" d then d
  else "/app/" +:+ (if String.prefix "./" d then str_drop 2 d else d).

Definition path_exists (d : string) : bool := String.eqb d "/app/data".

End RefLib.

(** ** More vocabulary of the properties *)

(** A word as the scan finds it: a letter, then letters, digits and
    hyphens. *)
Definition raw_word_shape (w : string) : bool :=
  match w with
  | EmptyString => false
  | String c r => Chars.is_alpha c && forallb Chars.is_word (String.list_ascii_of_string r)
  end.

(** A token: a lower-case letter, then lower-case letters, digits and
    hyphens. *)
Definition word_shape (w : string) : bool :=
  match w with
  | EmptyString => false
  | String c r =>
      Chars.is_lower c
      && forallb (λ x, Chars.is_lower x || Chars.is_digit x || Chars.is_hyphen x)
           (String.list_ascii_of_string r)
  end.

(** The attributes of an item that are keys of the table or of an index. *)
Definition key_attributes (it : Item) : list (option string) :=
  [Some (PK it); Some (SK it); GSI1PK it; GSI1SK it; GSI2PK it; GSI2SK it;
   GSI3PK it; GSI3SK it].

(** The §8 example record without its category. *)
Definition example_paper_uncategorised : RawPaper :=
  {| r_arxiv_id := None;
     r_id := Some "2301.00001";
     r_title := Some "Graph Neural Networks for Traffic";
     r_authors := Some ["A. Lee"; "B. Chen"];
     r_abstract :=
       Some "graph neural networks traffic graph prediction traffic networks graph";
     r_categories := None;
     r_published := Some "2023-01-15T10:30:00Z";
     r_updated := None;
     r_date := None |}.

(** The reference parser raises nothing but [ValueError]. *)
Ltac ref_raises :=
  intros ? ?; unfold RefParser.fromisoformat;
  destruct (RefParser.parse _); congruence.

(** * Properties *)

(** ** Keyword extraction *)

Example extract_keywords_stopwords :
  extract_keywords "We propose a GNN-based method; the GNN-based model is new." 10
  = ["gnn-based"; "model"; "new"].
Proof. vm_compute. reflexivity. Qed.

Example tokenize_runs :
  tokenize "GNN-based models (v2), 3D-CNNs & x_y"
  = ["gnn-based"; "models"; "v2"; "d-cnns"; "x"; "y"].
Proof. vm_compute. reflexivity. Qed.

(** Twelve distinct tokens: the ten ranked first are kept, in rank order. *)
Example extract_keywords_cut :
  extract_keywords
    "alpha beta gamma delta epsilon zeta eta theta iota kappa lambda omega omega kappa kappa" 10
  = ["kappa"; "omega"; "alpha"; "beta"; "gamma"; "delta"; "epsilon"; "zeta"; "eta"; "theta"].
Proof. vm_compute. reflexivity. Qed.




(** *** Frequencies and first occurrences *)

Lemma freq_snoc w l x :
  freq w (l ++ [x]) = freq w l + (if decide (w = x) then 1 else 0).
Proof.
  unfold freq. rewrite filter_app, length_app. f_equal.
  rewrite filter_cons, filter_nil. by destruct (decide (w = x)).
Qed.

Lemma freq_cons w l x :
  freq w (x :: l) = (if decide (w = x) then 1 else 0) + freq w l.
Proof. unfold freq. rewrite filter_cons. by destruct (decide (w = x)). Qed.

Lemma freq_absent w l : w ∉ l → freq w l = 0.
Proof.
  induction l as [|x l IH]; [done|]. intros [Hx Hl]%not_elem_of_cons.
  rewrite freq_cons, IH by done. by destruct (decide (w = x)).
Qed.

Lemma first_index_le w l : first_index w l ≤ length l.
Proof. induction l as [|x l IH]; simpl; [lia|]. destruct (decide (x = w)); lia. Qed.

Lemma first_index_lt w l : w ∈ l ↔ first_index w l < length l.
Proof.
  induction l as [|x l IH]; simpl.
  - split; [by intros ?%elem_of_nil | lia].
  - rewrite elem_of_cons. destruct (decide (x = w)) as [->|Hne].
    + split; [lia | by left].
    + rewrite IH. split; [intros [?|?]; [congruence | lia] | right; lia].
Qed.

Lemma first_index_app_l w l l' : w ∈ l → first_index w (l ++ l') = first_index w l.
Proof.
  induction l as [|x l IH]; [by intros ?%elem_of_nil|].
  intros Hin. simpl. destruct (decide (x = w)); [done|].
  f_equal. apply IH. apply elem_of_cons in Hin as [?|?]; [congruence | done].
Qed.

Lemma first_index_app_r w l l' :
  w ∉ l → first_index w (l ++ l') = length l + first_index w l'.
Proof.
  induction l as [|x l IH]; [done|]. intros [Hx Hl]%not_elem_of_cons.
  simpl. destruct (decide (x = w)); [congruence|]. by rewrite IH.
Qed.

(** *** The distinct elements in order of first occurrence *)

Lemma firsts_snoc l w :
  firsts (l ++ [w]) = if decide (w ∈ firsts l) then firsts l else firsts l ++ [w].
Proof. unfold firsts. by rewrite foldl_snoc. Qed.

Lemma elem_of_firsts l w : w ∈ firsts l ↔ w ∈ l.
Proof.
  induction l as [|x l IH] using rev_ind; [done|].
  rewrite firsts_snoc, elem_of_app, list_elem_of_singleton.
  destruct (decide (x ∈ firsts l)) as [Hx|Hx].
  - rewrite IH. split; [tauto|]. intros [?| ->]; [done|]. by apply IH.
  - rewrite elem_of_app, list_elem_of_singleton, IH. tauto.
Qed.

Lemma firsts_sorted l :
  StronglySorted (λ a b, first_index a l < first_index b l) (firsts l).
Proof.
  induction l as [|x l IH] using rev_ind; [constructor|].
  assert (Hkeep : StronglySorted
            (λ a b, first_index a (l ++ [x]) < first_index b (l ++ [x])) (firsts l)).
  { assert (Hall : Forall (λ a, a ∈ l) (firsts l)).
    { apply Forall_forall. intros a. apply elem_of_firsts. }
    revert IH Hall. generalize (firsts l). intros K HK.
    induction HK as [|a K HK IHK Ha]; intros Hall; [constructor|].
    apply Forall_cons in Hall as [Hal HK']. constructor; [by apply IHK|].
    apply Forall_forall. intros b Hb.
    rewrite !first_index_app_l;
      [by eapply Forall_forall in Ha | by eapply Forall_forall in HK' | done]. }
  rewrite firsts_snoc. destruct (decide (x ∈ firsts l)) as [Hx|Hx]; [done|].
  apply StronglySorted_app_2; [|done | repeat constructor].
  intros a b Ha ->%list_elem_of_singleton.
  rewrite elem_of_firsts in Ha.
  rewrite (first_index_app_l a) by done.
  rewrite (first_index_app_r x) by (by rewrite <-elem_of_firsts).
  apply first_index_lt in Ha. lia.
Qed.

Lemma NoDup_firsts l : NoDup (firsts l).
Proof.
  generalize (firsts_sorted l). generalize (firsts l). intros K HK.
  induction HK as [|a K HK IHK Ha]; constructor; [|done].
  intros Hin. eapply Forall_forall in Ha; [|done]. lia.
Qed.

(** *** The counter *)

Lemma Counter_snoc l w : Counter (l ++ [w]) = counter_incr w (Counter l).
Proof. unfold Counter. by rewrite foldl_snoc. Qed.

Lemma counter_incr_fresh w (f : string → nat) K :
  w ∉ K →
  counter_incr w ((λ k, (k, f k)) <$> K) = ((λ k, (k, f k)) <$> K) ++ [(w, 1)].
Proof.
  induction K as [|k K IH]; [done|]. intros [Hk HK]%not_elem_of_cons.
  csimpl. destruct (decide (k = w)); [congruence|]. by rewrite IH.
Qed.

Lemma counter_incr_seen w (f : string → nat) K :
  NoDup K → w ∈ K →
  counter_incr w ((λ k, (k, f k)) <$> K)
  = (λ k, (k, if decide (k = w) then S (f k) else f k)) <$> K.
Proof.
  induction K as [|k K IH]; [by intros _ ?%elem_of_nil|].
  intros [Hk HK]%NoDup_cons Hin. csimpl. destruct (decide (k = w)) as [->|Hne].
  - f_equal. apply list_fmap_ext. intros i k Hik.
    destruct (decide (k = w)) as [->|]; [|done].
    by apply list_elem_of_lookup_2 in Hik.
  - f_equal. apply IH; [done|].
    apply elem_of_cons in Hin as [?|?]; [congruence | done].
Qed.

(** The counter lists the distinct elements in order of first occurrence,
    each with its number of occurrences. *)
Lemma Counter_spec l : Counter l = (λ w, (w, freq w l)) <$> firsts l.
Proof.
  induction l as [|x l IH] using rev_ind; [done|].
  rewrite Counter_snoc, IH, firsts_snoc.
  destruct (decide (x ∈ firsts l)) as [Hx|Hx].
  - rewrite counter_incr_seen by auto using NoDup_firsts.
    apply list_fmap_ext. intros i k _. rewrite freq_snoc.
    destruct (decide (k = x)); f_equal; lia.
  - rewrite counter_incr_fresh by done. rewrite fmap_app. simpl.
    f_equal; [|f_equal; f_equal].
    + apply list_fmap_ext. intros i k Hik. rewrite freq_snoc.
      destruct (decide (k = x)) as [->|]; [|f_equal; lia].
      by apply list_elem_of_lookup_2 in Hik.
    + rewrite freq_snoc, freq_absent by (by rewrite <-elem_of_firsts).
      by destruct (decide (x = x)).
Qed.

(** *** The stable sort by descending count *)

Section SortedDesc.

(** [pos] is any position under which the input comes in ascending order. *)
Variable pos : string → nat.

Lemma insert_desc_Permutation x l : insert_desc x l ≡ₚ x :: l.
Proof.
  induction l as [|y l IH]; simpl; [done|].
  destruct (x.2 <? y.2); [|done]. by rewrite IH, Permutation_swap.
Qed.

Lemma sorted_desc_Permutation c : sorted_desc c ≡ₚ c.
Proof.
  induction c as [|x c IH]; simpl; [done|].
  by rewrite insert_desc_Permutation, IH.
Qed.

Lemma insert_desc_sorted x l :
  Forall (by_position pos x) l →
  StronglySorted (by_count_then_position pos) l →
  StronglySorted (by_count_then_position pos) (insert_desc x l).
Proof.
  intros Hx Hl. induction Hl as [|y l Hl IH Hy]; simpl.
  - repeat constructor.
  - apply Forall_cons in Hx as [Hxy Hxl].
    destruct (x.2 <? y.2) eqn:Hlt.
    + apply Nat.ltb_lt in Hlt. constructor; [by apply IH|].
      rewrite insert_desc_Permutation. constructor; [by left | done].
    + apply Nat.ltb_ge in Hlt. constructor; [by constructor|].
      constructor.
      * unfold by_count_then_position, by_position in *. lia.
      * rewrite Forall_forall in Hxl, Hy |- *. intros z Hz.
        specialize (Hxl z Hz). specialize (Hy z Hz).
        unfold by_count_then_position, by_position in *. lia.
Qed.

Lemma sorted_desc_sorted c :
  StronglySorted (by_position pos) c →
  StronglySorted (by_count_then_position pos) (sorted_desc c).
Proof.
  induction 1 as [|x c Hc IH Hx]; simpl; [constructor|].
  apply insert_desc_sorted; [|done]. by rewrite sorted_desc_Permutation.
Qed.

End SortedDesc.

(** *** Filtering keeps frequencies and the order of first occurrences *)

Lemma freq_filter (P : string → Prop) `{!∀ x, Decision (P x)} w l :
  P w → freq w (filter P l) = freq w l.
Proof.
  intros Hw. induction l as [|x l IH]; [done|].
  rewrite filter_cons. destruct (decide (P x)) as [Hx|Hx].
  - by rewrite !freq_cons, IH.
  - rewrite freq_cons, IH. destruct (decide (w = x)); [congruence | done].
Qed.

Lemma first_index_filter (P : string → Prop) `{!∀ x, Decision (P x)} a b l :
  P a → P b →
  first_index a (filter P l) < first_index b (filter P l)
  ↔ first_index a l < first_index b l.
Proof.
  intros Ha Hb. induction l as [|x l IH]; [done|].
  rewrite filter_cons. destruct (decide (P x)) as [Hx|Hx]; simpl.
  - destruct (decide (x = a)), (decide (x = b)); lia.
  - destruct (decide (x = a)), (decide (x = b)); try congruence. lia.
Qed.

Lemma StronglySorted_fmap_elem {A B} (R : relation A) (R' : relation B) (f : A → B) l :
  StronglySorted R l →
  (∀ x y, x ∈ l → y ∈ l → R x y → R' (f x) (f y)) →
  StronglySorted R' (f <$> l).
Proof.
  induction 1 as [|x l Hl IH Hx]; intros HR; csimpl; constructor.
  - apply IH. intros y z Hy Hz. apply HR; by right.
  - apply Forall_fmap, Forall_forall. intros y Hy. simpl.
    apply HR; [by left | by right |]. by eapply Forall_forall in Hx.
Qed.

(** *** The ranking computed by [extract_keywords] *)

Lemma Counter_keys l : (Counter l).*1 = firsts l.
Proof.
  rewrite Counter_spec, <-list_fmap_compose. apply list_fmap_id.
Qed.

Lemma extract_keywords_spec (abstract : string) (topk : nat) :
  ∃ ranked : list string,
    extract_keywords abstract topk = take topk ranked
    ∧ NoDup ranked
    ∧ (∀ w, w ∈ ranked ↔ w ∈ tokenize abstract ∧ kept w)
    ∧ StronglySorted (ranks_before (tokenize abstract)) ranked.
Proof.
  set (tokens := tokenize abstract). set (fl := filter kept tokens).
  exists (sorted_desc (Counter fl)).*1.
  assert (Hperm : (sorted_desc (Counter fl)).*1 ≡ₚ firsts fl).
  { by rewrite sorted_desc_Permutation, Counter_keys. }
  assert (Hin : ∀ w, w ∈ (sorted_desc (Counter fl)).*1 ↔ w ∈ tokens ∧ kept w).
  { intros w. rewrite Hperm, elem_of_firsts. unfold fl.
    rewrite list_elem_of_filter. tauto. }
  split_and!.
  - unfold extract_keywords, most_common. fold tokens. fold fl.
    by rewrite fmap_take.
  - rewrite Hperm. apply NoDup_firsts.
  - done.
  - apply StronglySorted_fmap_elem
      with (R := by_count_then_position (λ w, first_index w fl)).
    + apply sorted_desc_sorted. rewrite Counter_spec.
      apply (StronglySorted_fmap_elem (λ a b, first_index a fl < first_index b fl));
        [apply firsts_sorted | done].
    + intros x y Hx Hy Hxy.
      assert (Hcount : ∀ z, z ∈ sorted_desc (Counter fl) →
                z.2 = freq z.1 tokens ∧ kept z.1).
      { intros z. rewrite sorted_desc_Permutation, Counter_spec.
        intros (w & -> & Hw)%list_elem_of_fmap. simpl.
        apply elem_of_firsts, list_elem_of_filter in Hw as [Hk _].
        split; [by apply freq_filter | done]. }
      destruct (Hcount x Hx) as [Hx2 Hxk], (Hcount y Hy) as [Hy2 Hyk].
      unfold ranks_before. rewrite <-Hx2, <-Hy2.
      destruct Hxy as [?|[? Hpos]]; [by left | right; split; [done|]].
      unfold fl in Hpos. by rewrite (first_index_filter kept) in Hpos.
Qed.

(** C3.  For every abstract, [extract_keywords abstract 10] is the first ten
    entries (fewer if there are fewer) of the ranking of its tokens: the
    ranking lists, once each, exactly the tokens that are not stopwords and
    have at least three characters, a token of higher frequency before one
    of lower frequency, and of two tokens of equal frequency first the one
    that occurs first in the text. *)
Theorem extract_keywords_top10 (abstract : string) :
  ∃ ranked : list string,
    extract_keywords abstract 10 = take 10 ranked
    ∧ length (extract_keywords abstract 10) ≤ 10
    ∧ NoDup ranked
    ∧ (∀ w, w ∈ ranked ↔ w ∈ tokenize abstract ∧ (w ∉ STOPWORDS) ∧ 3 ≤ String.length w)
    ∧ StronglySorted (ranks_before (tokenize abstract)) ranked.
Proof.
  destruct (extract_keywords_spec abstract 10) as (ranked & Heq & Hnd & Hin & Hs).
  exists ranked. split_and!; try done.
  rewrite Heq, length_take. lia.
Qed.


(** C4.  On the abstract of the §8 example the extractor counts [graph]
    three times, [networks] and [traffic] twice each, [neural] and
    [prediction] once, and [networks] is seen before [traffic]; it returns
    [graph, networks, traffic, neural, prediction]. *)
Theorem example_keywords :
  let abstract :=
    "graph neural networks traffic graph prediction traffic networks graph" in
  let tokens := tokenize abstract in
  extract_keywords abstract 10 = ["graph"; "networks"; "traffic"; "neural"; "prediction"]
  ∧ freq "graph" tokens = 3
  ∧ freq "networks" tokens = 2 ∧ freq "traffic" tokens = 2
  ∧ freq "neural" tokens = 1 ∧ freq "prediction" tokens = 1
  ∧ first_index "networks" tokens < first_index "traffic" tokens.
Proof. vm_compute. repeat split; lia. Qed.

(** The order the specification gives for the §8 example, with [traffic]
    before [networks], is not the one computed. *)
Lemma example_keywords_not_as_specified :
  extract_keywords
    "graph neural networks traffic graph prediction traffic networks graph" 10
  ≠ ["graph"; "traffic"; "networks"; "neural"; "prediction"].
Proof. vm_compute. discriminate. Qed.

(** ** Date normalisation *)

(** Linear arithmetic with division and remainder by a constant. *)
Ltac lia_div := zify; Z.to_euclidean_division_equations; lia.

Lemma max_year : 9999 = 99 * 100 + 99.
Proof. reflexivity. Qed.

Lemma str_app_cons c (a b : string) : String c a +:+ b = String c (a +:+ b).
Proof. reflexivity. Qed.


Lemma str_app_nonempty_r (a b : string) : b ≠ "" → a +:+ b ≠ "".
Proof. destruct a; [done|]. by rewrite str_app_cons. Qed.

Lemma list_ascii_app a b :
  String.list_ascii_of_string (a +:+ b)
  = String.list_ascii_of_string a ++ String.list_ascii_of_string b.
Proof. induction a as [|c a IH]; [done|]. rewrite str_app_cons. cbn. by rewrite IH. Qed.

Lemma str_length_app (a b : string) :
  String.length (a +:+ b) = String.length a + String.length b.
Proof. induction a as [|c a IH]; [done|]. rewrite str_app_cons. cbn. by rewrite IH. Qed.


(** *** The printed year *)




Lemma dec_fuel_enough f1 f2 n : n < f1 → n < f2 → dec_fuel f1 n = dec_fuel f2 n.
Proof.
  revert f2 n. induction f1 as [|f1 IH]; intros [|f2] n H1 H2; try lia.
  cbn [dec_fuel]. destruct (Nat.ltb_spec n 10) as [|Hge]; [done|].
  f_equal. apply IH; lia_div.
Qed.

(** The numeral of [n] is the numeral of [n / 10], if there is one, followed
    by the last digit. *)
Lemma dec_eq n :
  dec n = (if n <? 10 then "" else dec (n / 10)) +:+ String (digit_char n) "".
Proof.
  unfold dec at 1. cbn [dec_fuel]. destruct (Nat.ltb_spec n 10) as [|Hge]; [done|].
  f_equal. apply dec_fuel_enough; lia_div.
Qed.








Lemma length_dec n :
  String.length (dec n) = if n <? 10 then 1 else S (String.length (dec (n / 10))).
Proof.
  rewrite dec_eq at 1. rewrite str_length_app. cbn [String.length].
  destruct (n <? 10); cbn [String.length]; lia.
Qed.

(** A year a [datetime] can hold is printed with one to four digits, with
    four from the year 1000 on. *)
Lemma length_dec_year y :
  1 ≤ y ≤ 9999 →
  1 ≤ String.length (dec y) ≤ 4 ∧ (String.length (dec y) = 4 ↔ 1000 ≤ y).
Proof.
  rewrite max_year. intros Hy.
  rewrite (length_dec y). destruct (Nat.ltb_spec y 10); [lia|].
  rewrite (length_dec (y / 10)). destruct (Nat.ltb_spec (y / 10) 10); [lia_div|].
  rewrite (length_dec (y / 10 / 10)).
  destruct (Nat.ltb_spec (y / 10 / 10) 10); [lia_div|].
  rewrite (length_dec (y / 10 / 10 / 10)).
  destruct (Nat.ltb_spec (y / 10 / 10 / 10) 10); lia_div.
Qed.

(** *** The printed date *)


Lemma length_strftime_ymd dt :
  String.length (strftime_ymd dt) = String.length (dec (year dt)) + 6.
Proof.
  unfold strftime_ymd, dec2. rewrite !str_length_app. cbn [String.length]. lia.
Qed.


(** *** The fallback and the rewritten marker *)

Lemma length_str_take n s : String.length (str_take n s) = n `min` String.length s.
Proof.
  revert s. induction n as [|n IH]; intros [|c s]; cbn; try done. by rewrite IH.
Qed.




(** *** The reference parser *)

Lemma RefParser_raises s e : RefParser.fromisoformat s = Raise e → e = ValueError.
Proof. unfold RefParser.fromisoformat. destruct (RefParser.parse s); congruence. Qed.

Lemma digit_bound c n : RefParser.digit c = Some n → n ≤ 9.
Proof.
  unfold RefParser.digit, Chars.is_digit.
  destruct (Nat.leb_spec 48 (Chars.code c)), (Nat.leb_spec (Chars.code c) 57);
    cbn; intros [= <-]; lia.
Qed.

Lemma num2_bound a b n : RefParser.num2 a b = Some n → n ≤ 99.
Proof.
  unfold RefParser.num2. destruct (RefParser.digit a) as [x|] eqn:Hx; [|done].
  destruct (RefParser.digit b) as [y|] eqn:Hy; [|done]. cbn. intros [= <-].
  apply digit_bound in Hx, Hy. lia.
Qed.

Lemma days_in_month_bound y m : RefParser.days_in_month y m ≤ 31.
Proof.
  unfold RefParser.days_in_month.
  destruct m as [|[|[|[|[|[|[|[|[|[|[|[|m]]]]]]]]]]]]; try lia.
  destruct (RefParser.is_leap y); lia.
Qed.

Lemma parse_date_valid l dt : RefParser.parse_date l = Some dt → valid_date dt.
Proof.
  unfold RefParser.parse_date.
  destruct l as [|y1 [|y2 [|y3 [|y4 [|h1 [|m1 [|m2 [|h2 [|d1 [|d2 [|? ?]]]]]]]]]]];
    try done.
  destruct (RefParser.num2 y1 y2) as [hi|] eqn:Hhi; [|done].
  destruct (RefParser.num2 y3 y4) as [lo|] eqn:Hlo; [|done].
  destruct (RefParser.num2 m1 m2) as [m|] eqn:Hm; [|done].
  destruct (RefParser.num2 d1 d2) as [d|] eqn:Hd; [|done].
  cbn [mbind option_bind].
  match goal with |- (if ?c then _ else _) = _ → _ => destruct c eqn:Hc end; [|done].
  intros [= <-]. rewrite !andb_true_iff in Hc.
  destruct Hc as ((((((_ & _) & Hy%Nat.leb_le) & Hm1%Nat.leb_le) & Hm2%Nat.leb_le)
                    & Hd1%Nat.leb_le) & Hd2%Nat.leb_le).
  apply num2_bound in Hhi, Hlo. pose proof (days_in_month_bound (100 * hi + lo) m).
  unfold valid_date. cbn [year month day]. rewrite max_year. lia.
Qed.

(** The reference parser returns only dates the constructor admits. *)
Lemma RefParser_valid s dt : RefParser.fromisoformat s = Ok dt → valid_date dt.
Proof.
  unfold RefParser.fromisoformat, RefParser.parse.
  destruct (RefParser.parse_date _) as [dt'|] eqn:Hd; [|done].
  apply parse_date_valid in Hd. cbn [mbind option_bind].
  destruct (drop 10 _) as [|? [|? ?]]; try (by intros [= <-]).
  destruct (RefParser.time_ok _ _); [by intros [= <-] | done].
Qed.

Example iso_to_date_utc :
  iso_to_date RefParser.fromisoformat "2023-01-15T10:30:00Z" = Ok "2023-01-15".
Proof. vm_compute. reflexivity. Qed.

Example iso_to_date_fallback :
  iso_to_date RefParser.fromisoformat "Jan 15, 2023 at noon" = Ok "Jan 15, 20".
Proof. vm_compute. reflexivity. Qed.

Section DateProps.

Variable fromisoformat : string → pyres datetime.

(** On a string, [datetime.fromisoformat] raises nothing but [ValueError]. *)
Hypothesis fromisoformat_raises : ∀ s e, fromisoformat s = Raise e → e = ValueError.

Lemma iso_to_date_total s : ∃ d, iso_to_date fromisoformat s = Ok d.
Proof.
  unfold iso_to_date. destruct (fromisoformat (replace_Z s)) as [dt|e] eqn:Hp; [eauto|].
  apply fromisoformat_raises in Hp as ->. eauto.
Qed.

(** The date derived from a non-empty string is not empty. *)
Lemma iso_to_date_nonempty s :
  s ≠ "" → ∃ d, iso_to_date fromisoformat s = Ok d ∧ d ≠ "".
Proof.
  intros Hs. unfold iso_to_date.
  destruct (fromisoformat (replace_Z s)) as [dt|e] eqn:Hp.
  - eexists. split; [done|]. unfold strftime_ymd. by apply str_app_nonempty_r.
  - apply fromisoformat_raises in Hp as ->. eexists. split; [done|]. by destruct s.
Qed.

(** A [datetime] it returns is one the constructor admits. *)
Hypothesis fromisoformat_valid : ∀ s dt, fromisoformat s = Ok dt → valid_date dt.


End DateProps.



(** ** The load statistics *)

Lemma stat_incr_same k s : stat k (stat_incr k s) = S (stat k s).
Proof. unfold stat_incr, stat at 1. by rewrite lookup_insert_eq. Qed.

Lemma stat_incr_other k k' s : k ≠ k' → stat k' (stat_incr k s) = stat k' s.
Proof. intros Hne. unfold stat_incr, stat at 1. by rewrite lookup_insert_ne. Qed.

Lemma stat_iter_same k n s : stat k (Nat.iter n (stat_incr k) s) = n + stat k s.
Proof. induction n as [|n IH]; simpl; [done|]. by rewrite stat_incr_same, IH. Qed.

Lemma stat_iter_other k k' n s :
  k ≠ k' → stat k' (Nat.iter n (stat_incr k) s) = stat k' s.
Proof.
  intros Hne. induction n as [|n IH]; simpl; [done|].
  by rewrite stat_incr_other, IH.
Qed.

(** ** One record's writes *)

Lemma put_all_app t l1 l2 : put_all t (l1 ++ l2) = put_all (put_all t l1) l2.
Proof. apply foldl_app. Qed.

Lemma put_all_cons t it l : put_all t (it :: l) = put_all (<[item_key it := it]> t) l.
Proof. reflexivity. Qed.

(** A [for] loop of [put_item] calls writes the items in order and counts
    each under the loop's counter. *)
Lemma foldl_put_item k (f : string → Item) st l :
  foldl (λ st x, put_item k st (f x)) st l
  = {| tbl := put_all (tbl st) (f <$> l);
       written := written st ++ (f <$> l);
       stats := Nat.iter (length l) (stat_incr k) (stats st);
       total_papers := total_papers st |}.
Proof.
  revert st. induction l as [|x l IH]; intros st.
  - destruct st. simpl. by rewrite app_nil_r.
  - cbn [foldl]. rewrite IH. unfold put_item at 1 2 3 4. cbn [tbl written stats total_papers].
    rewrite <-app_assoc, <-Nat.iter_succ_r. done.
Qed.

Lemma put_all_snoc t l it : put_all t (l ++ [it]) = <[item_key it := it]> (put_all t l).
Proof. unfold put_all. by rewrite foldl_snoc. Qed.

(** Writing a batch a second time changes nothing: every key of the batch
    already holds the item of its last write. *)
Lemma put_all_absorb x t l :
  <[item_key x := x]> (put_all (<[item_key x := x]> t) l)
  = <[item_key x := x]> (put_all t l).
Proof.
  revert t. induction l as [|y l IH] using rev_ind; intros t.
  - cbn. apply insert_insert_eq.
  - rewrite !put_all_snoc.
    destruct (decide (item_key x = item_key y)) as [Heq|Hne].
    + rewrite <-Heq, !insert_insert_eq. apply IH.
    + rewrite !(insert_insert_ne _ (item_key x) (item_key y)) by done.
      f_equal. apply IH.
Qed.

Lemma put_all_idem t l : put_all (put_all t l) l = put_all t l.
Proof.
  revert t. induction l as [|x l IH] using rev_ind; intros t; [done|].
  by rewrite !put_all_snoc, put_all_absorb, IH.
Qed.

Section LoaderProps.

Variable fromisoformat : string → pyres datetime.

Hypothesis fromisoformat_raises : ∀ s e, fromisoformat s = Raise e → e = ValueError.

(** The state after the iteration for an accepted record. *)
Lemma main_step_accepted st p d :
  skipped p = false →
  iso_to_date fromisoformat (norm_published p) = Ok d →
  let c := build_core p in
  main_step fromisoformat st p
  = Ok {| tbl := put_all (tbl st) (project c d);
          written := written st ++ project c d;
          stats :=
            Nat.iter (length (keywords c)) (stat_incr "keyword_items")
              (Nat.iter (length (authors c)) (stat_incr "author_items")
                 (Nat.iter (length (categories c)) (stat_incr "category_items")
                    (stat_incr "paper_id_items" (stats st))));
          total_papers := S (total_papers st) |}.
Proof.
  intros Hs Hd c. unfold main_step. rewrite Hs, Hd. cbn [mbind pyres_bind].
  fold c. rewrite !foldl_put_item. cbn [tbl written stats total_papers put_item].
  unfold project. f_equal. f_equal.
  - by rewrite put_all_cons, !put_all_app.
  - by rewrite <-!app_assoc.
Qed.

Lemma main_step_skipped st p : skipped p = true → main_step fromisoformat st p = Ok st.
Proof. intros Hs. unfold main_step. by rewrite Hs. Qed.

Lemma length_project c d :
  length (project c d)
  = 1 + length (categories c) + length (authors c) + length (keywords c).
Proof. unfold project. cbn [length]. rewrite !length_app, !length_fmap. lia. Qed.

Lemma not_skipped p :
  norm_id p ≠ "" → norm_title p ≠ "" → norm_published p ≠ "" → skipped p = false.
Proof.
  intros H1 H2 H3. unfold skipped.
  apply String.eqb_neq in H1, H2, H3. by rewrite H1, H2, H3.
Qed.

(** C1.  For a record with a non-empty id, title and published date, one
    pass of the loader makes exactly
    [1 + |categories| + |authors| + |keywords|] calls of [put_item]: the
    paper item, then one category item per entry of the categories list, one
    author item per entry of the authors list and one keyword item per
    extracted keyword, entry by entry, so a repeated entry is written as
    often as it is listed.  The four counters grow by these numbers. *)
Theorem load_item_count (st : LoadState) (p : RawPaper) :
  norm_id p ≠ "" → norm_title p ≠ "" → norm_published p ≠ "" →
  let c := build_core p in
  ∃ st' date_str,
    main_step fromisoformat st p = Ok st'
    ∧ written st' =
        written st
        ++ [paper_item c date_str]
        ++ ((λ cat, cat_item c date_str cat) <$> or_empty (r_categories p))
        ++ ((λ author, a_item c date_str author) <$> or_empty (r_authors p))
        ++ ((λ kw, k_item c date_str kw) <$> extract_keywords (safe_str (r_abstract p)) 10)
    ∧ length (written st') =
        length (written st)
        + (1 + length (or_empty (r_categories p)) + length (or_empty (r_authors p))
           + length (extract_keywords (safe_str (r_abstract p)) 10))
    ∧ stat "paper_id_items" (stats st') = stat "paper_id_items" (stats st) + 1
    ∧ stat "category_items" (stats st')
      = stat "category_items" (stats st) + length (or_empty (r_categories p))
    ∧ stat "author_items" (stats st')
      = stat "author_items" (stats st) + length (or_empty (r_authors p))
    ∧ stat "keyword_items" (stats st')
      = stat "keyword_items" (stats st)
        + length (extract_keywords (safe_str (r_abstract p)) 10)
    ∧ total_papers st' = S (total_papers st).
Proof.
  intros H1 H2 H3 c.
  destruct (iso_to_date_total fromisoformat fromisoformat_raises (norm_published p))
    as [d Hd].
  eexists _, d. split; [by apply main_step_accepted, Hd; apply not_skipped|].
  cbn [tbl written stats total_papers]. split_and!.
  - done.
  - rewrite length_app, length_project. done.
  - rewrite !stat_iter_other, stat_incr_same by done. lia.
  - rewrite !stat_iter_other, stat_iter_same, stat_incr_other by done. cbn. lia.
  - rewrite !stat_iter_other, stat_iter_same, !stat_iter_other, stat_incr_other by done.
    cbn. lia.
  - rewrite stat_iter_same, !stat_iter_other, stat_incr_other by done. cbn. lia.
  - done.
Qed.

(** *** Skipped records *)

Lemma safe_str_or_empty a b :
  safe_str (py_or a b) = "" ↔ truthy a = false ∧ truthy b = false.
Proof.
  unfold py_or. destruct a as [[|x a]|], b as [[|y b]|]; cbn; intuition congruence.
Qed.

Lemma safe_str_empty a : safe_str a = "" ↔ truthy a = false.
Proof. destruct a as [[|x a]|]; cbn; intuition congruence. Qed.

Lemma truthy_py_or a b : truthy (py_or a b) = truthy a || truthy b.
Proof. unfold py_or. by destruct (truthy a) eqn:Ha. Qed.

(** The guard of line 134 in terms of the fields of the input record. *)
Lemma skipped_fields p :
  skipped p = true
  ↔ (truthy (r_arxiv_id p) = false ∧ truthy (r_id p) = false)
    ∨ truthy (r_title p) = false
    ∨ (truthy (r_published p) = false ∧ truthy (r_updated p) = false
       ∧ truthy (r_date p) = false).
Proof.
  unfold skipped. rewrite !orb_true_iff, !String.eqb_eq.
  unfold norm_id, norm_title, norm_published.
  rewrite !safe_str_or_empty, safe_str_empty, truthy_py_or, orb_false_iff. tauto.
Qed.

Lemma for_each_app {S A} (body : S → A → pyres S) st l1 l2 :
  for_each body st (l1 ++ l2) = (st' ← for_each body st l1; for_each body st' l2).
Proof.
  revert st. induction l1 as [|x l1 IH]; intros st; [done|].
  cbn [app for_each]. destruct (body st x) as [st1|e]; cbn; [apply IH | done].
Qed.

(** C6.  A record whose id is absent or empty under both [arxiv_id] and
    [id], or whose title is absent or empty, or whose date is absent or
    empty under all of [published], [updated] and [date], leaves the state
    of the load as it was: no item is written, no counter and no paper
    count changes.  The loop goes on with the records after it, so the load
    is the load of the input without that record. *)
Theorem skipped_record_ignored (p : RawPaper) :
  (truthy (r_arxiv_id p) = false ∧ truthy (r_id p) = false)
  ∨ truthy (r_title p) = false
  ∨ (truthy (r_published p) = false ∧ truthy (r_updated p) = false
     ∧ truthy (r_date p) = false) →
  (∀ st, main_step fromisoformat st p = Ok st)
  ∧ (∀ st before after,
       main_loop fromisoformat st (before ++ p :: after)
       = main_loop fromisoformat st (before ++ after)).
Proof.
  intros Hs%skipped_fields.
  assert (Hstep : ∀ st, main_step fromisoformat st p = Ok st).
  { intros st. by apply main_step_skipped. }
  split; [done|]. intros st before after. unfold main_loop.
  rewrite !for_each_app. destruct (for_each _ st before) as [st1|e]; [|done].
  cbn. by rewrite Hstep.
Qed.

(** *** The table after a load *)

Lemma main_step_projection st p :
  ∃ st', main_step fromisoformat st p = Ok st'
         ∧ tbl st' = put_all (tbl st) (projection fromisoformat p)
         ∧ written st' = written st ++ projection fromisoformat p.
Proof.
  unfold projection. destruct (skipped p) eqn:Hs.
  - exists st. rewrite main_step_skipped, app_nil_r by done. done.
  - destruct (iso_to_date_total fromisoformat fromisoformat_raises (norm_published p))
      as [d Hd].
    rewrite Hd. eexists. split; [by apply main_step_accepted|]. done.
Qed.

Lemma main_loop_projection papers st :
  ∃ st', main_loop fromisoformat st papers = Ok st'
         ∧ tbl st' = put_all (tbl st) (papers ≫= projection fromisoformat)
         ∧ written st' = written st ++ (papers ≫= projection fromisoformat).
Proof.
  revert st. induction papers as [|p papers IH]; intros st.
  - exists st. by rewrite app_nil_r.
  - destruct (main_step_projection st p) as (st1 & H1 & Ht1 & Hw1).
    destruct (IH st1) as (st2 & H2 & Ht2 & Hw2).
    exists st2. unfold main_loop in *. cbn [for_each]. rewrite H1.
    cbn [mbind pyres_bind].
    rewrite H2, Ht2, Hw2, Ht1, Hw1, bind_cons, put_all_app, app_assoc. done.
Qed.

(** C2.  Loading a record a second time, right after the first, leaves the
    table as the first load left it, with as many items as before. *)
Theorem reload_idempotent (st : LoadState) (p : RawPaper) :
  ∃ st1 st2,
    main_step fromisoformat st p = Ok st1
    ∧ main_step fromisoformat st1 p = Ok st2
    ∧ tbl st2 = tbl st1
    ∧ size (tbl st2) = size (tbl st1).
Proof.
  destruct (main_step_projection st p) as (st1 & H1 & Ht1 & _).
  destruct (main_step_projection st1 p) as (st2 & H2 & Ht2 & _).
  exists st1, st2. split_and!; [done..| |].
  - by rewrite Ht2, Ht1, put_all_idem.
  - by rewrite Ht2, Ht1, put_all_idem.
Qed.

(** The same holds for a whole input file loaded a second time. *)
Lemma reload_file_idempotent (st : LoadState) (papers : list RawPaper) :
  ∃ st1 st2,
    main_loop fromisoformat st papers = Ok st1
    ∧ main_loop fromisoformat st1 papers = Ok st2
    ∧ tbl st2 = tbl st1.
Proof.
  destruct (main_loop_projection papers st) as (st1 & H1 & Ht1 & _).
  destruct (main_loop_projection papers st1) as (st2 & H2 & Ht2 & _).
  exists st1, st2. split_and!; [done..|].
  by rewrite Ht2, Ht1, put_all_idem.
Qed.

End LoaderProps.

(** ** The order of sort keys *)

Lemma ascii_compare_refl c : Ascii.compare c c = Eq.
Proof. unfold Ascii.compare. apply N.compare_refl. Qed.

Lemma str_compare_refl s : String.compare s s = Eq.
Proof. induction s as [|c s IH]; [done|]. cbn. by rewrite ascii_compare_refl. Qed.

Lemma str_compare_eq a b : String.compare a b = Eq ↔ a = b.
Proof. split; [apply String.compare_eq_iff | intros ->; apply str_compare_refl]. Qed.

(** Behind a common prefix the rests decide. *)
Lemma str_compare_app_same p x y :
  String.compare (p +:+ x) (p +:+ y) = String.compare x y.
Proof.
  induction p as [|c p IH]; [done|]. rewrite !str_app_cons. cbn.
  by rewrite ascii_compare_refl.
Qed.

(** Two different strings of one length are told apart before either ends,
    whatever follows them. *)
Lemma str_compare_app_diff a b x y :
  String.length a = String.length b → a ≠ b →
  String.compare (a +:+ x) (b +:+ y) = String.compare a b.
Proof.
  revert b. induction a as [|c a IH]; intros [|c' b] Hlen Hne; try done.
  rewrite !str_app_cons. cbn. destruct (Ascii.compare c c') eqn:Hc; [|done..].
  apply Ascii.compare_eq_iff in Hc as ->.
  apply IH; [by injection Hlen | congruence].
Qed.

Lemma str_le_compare a b : str_le a b ↔ String.compare a b ≠ Gt.
Proof.
  unfold String.le, String.leb. destruct (String.compare a b); cbn; intuition congruence.
Qed.

Lemma str_le_refl a : str_le a a.
Proof. apply str_le_compare. by rewrite str_compare_refl. Qed.

(** The lower bound [start#] of the range. *)
Lemma lower_bound_date start d id :
  String.length d = String.length start →
  str_le (start +:+ "#") (d +:+ "#" +:+ id) ↔ str_le start d.
Proof.
  intros Hlen. destruct (decide (start = d)) as [->|Hne].
  - split; [intros _; apply str_le_refl | intros _].
    apply str_le_compare. rewrite str_compare_app_same. by destruct id.
  - rewrite !str_le_compare, str_compare_app_diff by done. done.
Qed.

(** The upper bound [end#zzzzzzz] of the range. *)
Lemma upper_bound_date end_ d id :
  String.length d = String.length end_ →
  str_le (d +:+ "#" +:+ id) (end_ +:+ "#zzzzzzz")
  ↔ str_le d end_ ∧ (d = end_ → str_le id "zzzzzzz").
Proof.
  intros Hlen. destruct (decide (d = end_)) as [->|Hne].
  - rewrite !str_le_compare, str_compare_app_same, str_compare_refl.
    change (String.compare ("#" +:+ id) "#zzzzzzz") with (String.compare id "zzzzzzz").
    split; [intros Hid; split; [done | by intros _] | intros [_ Hid]; by apply Hid].
  - rewrite !str_le_compare, str_compare_app_diff by done.
    split; [intros Hd; split; [done | by intros ?] | by intros [Hd _]].
Qed.

(** ** Queries *)

Lemma ascending_Permutation {A} (sk : A → string) l : ascending sk l ≡ₚ l.
Proof. apply merge_sort_Permutation. Qed.

Lemma elem_of_query_between t pk lo hi it :
  it ∈ query_between t pk lo hi
  ↔ ∃ sk, t !! (pk, sk) = Some it ∧ str_le lo sk ∧ str_le sk hi.
Proof.
  unfold query_between. rewrite list_elem_of_fmap. split.
  - intros ([[pk' sk] it'] & -> & Hin). rewrite ascending_Permutation in Hin.
    apply list_elem_of_filter in Hin as [(Hpk & Hlo & Hhi) Hin]. cbn in *. subst pk'.
    apply elem_of_map_to_list in Hin. eauto.
  - intros (sk & Hin & Hlo & Hhi). exists ((pk, sk), it). split; [done|].
    rewrite ascending_Permutation. apply list_elem_of_filter. split; [done|].
    by apply elem_of_map_to_list.
Qed.

Lemma elem_of_query_index ipk isk t pk it :
  it ∈ query_index ipk isk t pk
  ↔ (∃ k, t !! k = Some it) ∧ ipk it = Some pk ∧ is_Some (isk it).
Proof.
  unfold query_index. rewrite ascending_Permutation, list_elem_of_filter, list_elem_of_fmap.
  split.
  - intros [[? ?] ([k it'] & -> & Hin)]. apply elem_of_map_to_list in Hin. eauto.
  - intros [[k Hk] [? ?]]. split; [done|]. exists (k, it).
    split; [done|]. by apply elem_of_map_to_list.
Qed.

(** C7, as the code has it.  [query_papers_in_date_range] returns only items
    stored under the partition key [CATEGORY#<category>].  For a stored item
    whose sort key is [<date>#<id>], with the date as long as the start and
    the end date (as calendar dates
    [YYYY-MM-DD] are), the item is returned exactly when it lies in the
    category, its date lies in [[start, end]] in the order of strings and,
    if the date is the end date, its id does not sort behind [zzzzzzz].  The
    search route of the HTTP front end answers with the same items. *)
Theorem date_range_results (t : table) (category start_date end_date : string) :
  well_keyed t →
  let env := query_papers_in_date_range t category start_date end_date in
  count env = length (results env)
  ∧ (∀ it, it ∈ results env →
       t !! item_key it = Some it ∧ PK it = "CATEGORY#" +:+ category)
  ∧ (∀ it d id,
       t !! item_key it = Some it →
       SK it = d +:+ "#" +:+ id →
       String.length d = String.length start_date →
       String.length d = String.length end_date →
       it ∈ results env
       ↔ PK it = "CATEGORY#" +:+ category
         ∧ str_le start_date d ∧ str_le d end_date
         ∧ (d = end_date → str_le id "zzzzzzz"))
  ∧ (truthy (Some category) = true → truthy (Some start_date) = true →
     truthy (Some end_date) = true →
     route_search t (Some category) (Some start_date) (Some end_date)
     = RespPapers 200 (results env) (count env)).
Proof.
  intros Hwk env.
  assert (Hres : ∀ it, it ∈ results env ↔
            t !! item_key it = Some it ∧ PK it = "CATEGORY#" +:+ category
            ∧ str_le (start_date +:+ "#") (SK it)
            ∧ str_le (SK it) (end_date +:+ "#zzzzzzz")).
  { intros it. unfold env, query_papers_in_date_range. cbn [results].
    rewrite elem_of_query_between. split.
    - intros (sk & Hin & Hlo & Hhi). pose proof (Hwk _ _ Hin) as Hk.
      unfold item_key in *. injection Hk as Hpk Hsk. by rewrite <-Hpk, <-Hsk.
    - intros (Hin & Hpk & Hlo & Hhi). exists (SK it). unfold item_key in Hin.
      by rewrite <-Hpk. }
  split_and!.
  - done.
  - intros it Hit%Hres. tauto.
  - intros it d id Hin Hsk Hs He. rewrite Hres, Hsk.
    rewrite lower_bound_date, upper_bound_date by done. tauto.
  - intros Hc Hs He. unfold route_search. by rewrite Hc, Hs, He.
Qed.

(** ** The table a load builds *)

Lemma elem_of_project it c d :
  it ∈ project c d
  ↔ it = paper_item c d
    ∨ (∃ cat, cat ∈ categories c ∧ it = cat_item c d cat)
    ∨ (∃ author, author ∈ authors c ∧ it = a_item c d author)
    ∨ (∃ kw, kw ∈ keywords c ∧ it = k_item c d kw).
Proof.
  unfold project. rewrite elem_of_cons, !elem_of_app, !list_elem_of_fmap.
  naive_solver.
Qed.

Lemma put_all_lookup_inv t l k it :
  put_all t l !! k = Some it → t !! k = Some it ∨ (it ∈ l ∧ k = item_key it).
Proof.
  induction l as [|x l IH] using rev_ind; [by left|].
  rewrite put_all_snoc, lookup_insert_Some. intros [[<- <-]|[Hne Hk]].
  - right. split; [|done]. apply elem_of_app. right. by apply list_elem_of_singleton.
  - destruct (IH Hk) as [?|[? ?]]; [by left|]. right. split; [|done].
    apply elem_of_app. by left.
Qed.

(** A key that was written holds an item of the batch with that key. *)
Lemma put_all_lookup_elem t l it :
  it ∈ l → ∃ it', put_all t l !! item_key it = Some it' ∧ it' ∈ l
                  ∧ item_key it' = item_key it.
Proof.
  induction l as [|x l IH] using rev_ind; [by intros ?%elem_of_nil|].
  intros Hin. rewrite put_all_snoc.
  destruct (decide (item_key x = item_key it)) as [Heq|Hne].
  - exists x. rewrite <-Heq, lookup_insert_eq. split_and!; [done| |done].
    apply elem_of_app. right. by apply list_elem_of_singleton.
  - rewrite lookup_insert_ne by done.
    apply elem_of_app in Hin as [Hin|Hin%list_elem_of_singleton]; [|congruence].
    destruct (IH Hin) as (it' & ? & ? & ?). exists it'. split_and!; [done| |done].
    apply elem_of_app. by left.
Qed.

Lemma put_all_well_keyed t l : well_keyed t → well_keyed (put_all t l).
Proof.
  intros Ht k it [Hk|[_ Hk]]%put_all_lookup_inv; [by apply Ht | done].
Qed.

Lemma elem_of_projection fromisoformat p it :
  it ∈ projection fromisoformat p
  ↔ skipped p = false
    ∧ ∃ d, iso_to_date fromisoformat (norm_published p) = Ok d
           ∧ it ∈ project (build_core p) d.
Proof.
  unfold projection. destruct (skipped p).
  - rewrite elem_of_nil. naive_solver.
  - destruct (iso_to_date fromisoformat (norm_published p)) as [d|e].
    + naive_solver.
    + rewrite elem_of_nil. naive_solver.
Qed.

Lemma paper_key_is_paper_item it c d id :
  it ∈ project c d → PK it = "PAPER#" +:+ id → it = paper_item c d ∧ arxiv_id c = id.
Proof.
  intros Hin%elem_of_project Hpk.
  destruct Hin as [->|[(x & _ & ->)|[(x & _ & ->)|(x & _ & ->)]]];
    cbn in Hpk; try discriminate.
  split; [done|]. by apply (inj (String.app "PAPER#")) in Hpk.
Qed.


Lemma index2_is_paper_item it c d pk :
  it ∈ project c d → GSI2PK it = Some pk → it = paper_item c d ∧ PK it = pk ∧ SK it = "A".
Proof.
  intros Hin%elem_of_project Hpk.
  destruct Hin as [->|[(x & _ & ->)|[(x & _ & ->)|(x & _ & ->)]]];
    cbn in Hpk; try discriminate.
  injection Hpk as <-. done.
Qed.

Lemma filter_none {A} (P : A → Prop) `{!∀ x, Decision (P x)} (l : list A) :
  (∀ x, x ∈ l → ¬ P x) → filter P l = [].
Proof.
  induction l as [|x l IH]; [done|]. intros Hl.
  rewrite filter_cons_False by (apply Hl; by left).
  apply IH. intros y Hy. apply Hl. by right.
Qed.

(** An index partition with no item is empty. *)
Lemma query_index_none (ipk isk : Item → option string) (t : table) pk :
  (∀ k it, t !! k = Some it → ipk it ≠ Some pk) → query_index ipk isk t pk = [].
Proof.
  intros Hnone. unfold query_index. rewrite filter_none; [done|].
  intros it ([k it'] & -> & Hin%elem_of_map_to_list)%list_elem_of_fmap [Hpk _].
  by eapply Hnone.
Qed.

(** An index partition whose items all sit under one key of the table
    holds one item. *)
Lemma query_index_unique (ipk isk : Item → option string) (t : table) pk k0 it0 :
  t !! k0 = Some it0 → ipk it0 = Some pk → is_Some (isk it0) →
  (∀ k it, t !! k = Some it → ipk it = Some pk → k = k0) →
  query_index ipk isk t pk = [it0].
Proof.
  intros Hk0 Hpk Hsk Huniq. unfold query_index.
  apply Permutation_singleton_r. rewrite ascending_Permutation.
  rewrite <-(insert_id t k0 it0), <-insert_delete_eq by done.
  rewrite map_to_list_insert by apply lookup_delete_eq.
  rewrite fmap_cons, filter_cons_True by done. cbn [snd].
  rewrite filter_none; [done|].
  intros it ([k it'] & -> & Hin%elem_of_map_to_list)%list_elem_of_fmap [Hpk' _].
  apply lookup_delete_Some in Hin as [Hne Hin]. cbn in *.
  destruct Hne. symmetry. by eapply Huniq.
Qed.

Section LoadedTable.

Variable fromisoformat : string → pyres datetime.

Hypothesis fromisoformat_raises : ∀ s e, fromisoformat s = Raise e → e = ValueError.

(** A load into the empty table succeeds; every stored item is an item of
    an accepted record of the input, under its own key, and every item of
    an accepted record has its key in the table. *)
Lemma load_table papers :
  ∃ st',
    main_loop fromisoformat init_state papers = Ok st'
    ∧ well_keyed (tbl st')
    ∧ (∀ k it, tbl st' !! k = Some it →
         ∃ p d, p ∈ papers ∧ skipped p = false
                ∧ iso_to_date fromisoformat (norm_published p) = Ok d
                ∧ it ∈ project (build_core p) d)
    ∧ (∀ p d it, p ∈ papers → skipped p = false →
         iso_to_date fromisoformat (norm_published p) = Ok d →
         it ∈ project (build_core p) d →
         ∃ it', tbl st' !! item_key it = Some it').
Proof.
  destruct (main_loop_projection fromisoformat fromisoformat_raises papers init_state)
    as (st' & Hload & Ht & _).
  exists st'. cbn in Ht. split_and!; [done|..].
  - rewrite Ht. apply put_all_well_keyed. intros k it. by rewrite lookup_empty.
  - intros k it. rewrite Ht. intros [Hk|[Hin _]]%put_all_lookup_inv.
    + by rewrite lookup_empty in Hk.
    + apply list_elem_of_bind in Hin as (p & Hin & Hp).
      apply elem_of_projection in Hin as (Hs & d & Hd & Hin). eauto 10.
  - intros p d it Hp Hs Hd Hin.
    destruct (put_all_lookup_elem ∅ (papers ≫= projection fromisoformat) it)
      as (it' & Hit' & _).
    + apply list_elem_of_bind. exists p. split; [|done].
      apply elem_of_projection. eauto.
    + exists it'. by rewrite Ht.
Qed.

(** C9, as the code has it.  After a load into the empty table the payload
    of every stored item is the [core] of an accepted input record, and its
    [published] field is the source string of that record as it came (the
    first non-empty one of [published], [updated], [date]).  The date
    [iso_to_date] derives from it is used for the keys only: it is the
    [GSI2SK] of the paper item and the head of the sort key [<date>#<id>] of
    every other item. *)
Theorem stored_published_is_source_string (papers : list RawPaper) :
  ∃ st',
    main_loop fromisoformat init_state papers = Ok st'
    ∧ ∀ k it, tbl st' !! k = Some it →
        ∃ p date_str,
          p ∈ papers
          ∧ iso_to_date fromisoformat (norm_published p) = Ok date_str
          ∧ core it = build_core p
          ∧ published (core it)
            = safe_str (py_or (py_or (r_published p) (r_updated p)) (r_date p))
          ∧ ((SK it = "A" ∧ GSI2SK it = Some date_str)
             ∨ SK it = date_str +:+ "#" +:+ arxiv_id (core it)).
Proof.
  destruct (load_table papers) as (st' & Hload & _ & Hitems & _).
  exists st'. split; [done|]. intros k it Hk.
  destruct (Hitems k it Hk) as (p & d & Hp & _ & Hd & Hin).
  exists p, d. split_and!; [done..| | |];
    apply elem_of_project in Hin
      as [->|[(x & _ & ->)|[(x & _ & ->)|(x & _ & ->)]]]; cbn; auto.
Qed.

(** C8.  [get_paper_by_id] returns at most one result, and its count is the
    number of results.  On a table without an item under [PAPER#<id>] in the
    paper index it returns the empty list with count 0, and the route of the
    HTTP front end answers 404.  After a load into the empty table there is
    exactly one stored item with partition key [PAPER#<id>] for an id of an
    accepted record, under the sort key [A], and it is the one result; for
    any other id the result is empty. *)
Theorem get_paper_by_id_outcome (papers : list RawPaper) (id : string) :
  (∀ t, length (results (get_paper_by_id t id)) ≤ 1
        ∧ count (get_paper_by_id t id) = length (results (get_paper_by_id t id)))
  ∧ (∀ t, (∀ k it, t !! k = Some it → GSI2PK it ≠ Some ("PAPER#" +:+ id)) →
          results (get_paper_by_id t id) = []
          ∧ count (get_paper_by_id t id) = 0
          ∧ route_paper t id = RespError 404 "not found")
  ∧ ∃ st',
      main_loop fromisoformat init_state papers = Ok st'
      ∧ ((∃ p, p ∈ papers ∧ skipped p = false ∧ norm_id p = id) →
         ∃ it,
           tbl st' !! ("PAPER#" +:+ id, "A") = Some it
           ∧ (∀ k it', tbl st' !! k = Some it' → PK it' = "PAPER#" +:+ id →
                k = ("PAPER#" +:+ id, "A") ∧ it' = it)
           ∧ results (get_paper_by_id (tbl st') id) = [it]
           ∧ count (get_paper_by_id (tbl st') id) = 1
           ∧ route_paper (tbl st') id = RespItem 200 it)
      ∧ ((¬ ∃ p, p ∈ papers ∧ skipped p = false ∧ norm_id p = id) →
         results (get_paper_by_id (tbl st') id) = []
         ∧ count (get_paper_by_id (tbl st') id) = 0
         ∧ route_paper (tbl st') id = RespError 404 "not found").
Proof.
  assert (Hnone : ∀ t, (∀ k it, t !! k = Some it → GSI2PK it ≠ Some ("PAPER#" +:+ id)) →
            results (get_paper_by_id t id) = []
            ∧ count (get_paper_by_id t id) = 0
            ∧ route_paper t id = RespError 404 "not found").
  { intros t Ht. unfold get_paper_by_id, route_paper.
    by rewrite (query_index_none _ _ _ _ Ht). }
  split_and!; [|done|].
  { intros t. unfold get_paper_by_id. cbn [results count].
    destruct (head _); cbn; split; (lia || done). }
  destruct (load_table papers) as (st' & Hload & Hwk & Hitems & Hkeys).
  exists st'. split_and!; [done| |].
  - intros (p & Hp & Hs & <-).
    destruct (iso_to_date_total fromisoformat fromisoformat_raises (norm_published p))
      as [d Hd].
    destruct (Hkeys p d (paper_item (build_core p) d) Hp Hs Hd) as [it Hit].
    { apply elem_of_project. by left. }
    change (item_key (paper_item (build_core p) d))
      with ("PAPER#" +:+ norm_id p, "A") in Hit.
    assert (Hpaper : ∀ k it', tbl st' !! k = Some it' →
              PK it' = "PAPER#" +:+ norm_id p → k = ("PAPER#" +:+ norm_id p, "A")).
    { intros k it' Hk Hpk. destruct (Hitems k it' Hk) as (p' & d' & _ & _ & _ & Hin).
      destruct (paper_key_is_paper_item _ _ _ _ Hin Hpk) as [-> _].
      rewrite (Hwk k _ Hk). unfold item_key. by rewrite Hpk. }
    assert (Hidx : GSI2PK it = Some ("PAPER#" +:+ norm_id p) ∧ is_Some (GSI2SK it)).
    { destruct (Hitems _ it Hit) as (p' & d' & _ & _ & _ & Hin).
      pose proof (Hwk _ _ Hit) as Hk. injection Hk as Hpk Hsk.
      destruct (paper_key_is_paper_item _ _ _ (norm_id p) Hin) as [-> Hid]; [done|].
      cbn [GSI2PK GSI2SK paper_item]. rewrite Hid. eauto. }
    destruct Hidx as [Hi1 Hi2].
    assert (Hq : query_index GSI2PK GSI2SK (tbl st') ("PAPER#" +:+ norm_id p) = [it]).
    { apply (query_index_unique _ _ _ _ ("PAPER#" +:+ norm_id p, "A")); [done..|].
      intros k it' Hk Hg. apply (Hpaper k it' Hk).
      destruct (Hitems k it' Hk) as (p' & d' & _ & _ & _ & Hin).
      by destruct (index2_is_paper_item _ _ _ _ Hin Hg) as (_ & ? & _). }
    exists it. split_and!; [done| |unfold get_paper_by_id; by rewrite Hq..
                           |unfold route_paper; by rewrite Hq].
    intros k it' Hk Hpk. pose proof (Hpaper k it' Hk Hpk) as ->.
    split; [done | congruence].
  - intros Hno. apply Hnone. intros k it Hk Hg.
    destruct (Hitems k it Hk) as (p' & d' & Hp' & Hs' & _ & Hin).
    destruct (index2_is_paper_item _ _ _ _ Hin Hg) as (-> & Hpk & _).
    apply (inj (String.app "PAPER#")) in Hpk. apply Hno. eauto.
Qed.


End LoadedTable.

(** ** The properties on concrete input *)

(** The §8 example: its date, and the nine items it is stored as. *)
Example example_load :
  main_loop RefParser.fromisoformat init_state [example_paper] = Ok (loaded [example_paper])
  ∧ iso_to_date RefParser.fromisoformat (norm_published example_paper) = Ok "2023-01-15"
  ∧ length (written (loaded [example_paper])) = 9
  ∧ size (tbl (loaded [example_paper])) = 9
  ∧ total_items (loaded [example_paper]) = 9
  ∧ total_papers (loaded [example_paper]) = 1.
Proof. split_and!; vm_compute; reflexivity. Qed.

(** The payload of the §8 example keeps the source timestamp: its
    [published] field is not the calendar date the keys are built from. *)
Lemma example_published_not_normalised :
  ∃ st' it,
    main_loop RefParser.fromisoformat init_state [example_paper] = Ok st'
    ∧ tbl st' !! ("PAPER#2301.00001", "A") = Some it
    ∧ iso_to_date RefParser.fromisoformat (norm_published example_paper) = Ok "2023-01-15"
    ∧ published (core it) = "2023-01-15T10:30:00Z"
    ∧ is_ymd (published (core it)) = false
    ∧ published (core it) ≠ "2023-01-15".
Proof.
  exists (loaded [example_paper]), (paper_item (build_core example_paper) "2023-01-15").
  split_and!; try (vm_compute; reflexivity). vm_compute. discriminate.
Qed.

(** A paper dated on the end date of the range, in the category asked for,
    is not returned when its id sorts behind [zzzzzzz]. *)
Lemma date_range_misses_end_date_item :
  ∃ st' it,
    main_loop RefParser.fromisoformat init_state [tilde_paper] = Ok st'
    ∧ tbl st' !! ("CATEGORY#cs.LG", "2023-01-15#~2301.00001") = Some it
    ∧ PK it = "CATEGORY#cs.LG"
    ∧ SK it = "2023-01-15" +:+ "#" +:+ "~2301.00001"
    ∧ results (query_papers_in_date_range (tbl st') "cs.LG" "2023-01-01" "2023-01-15") = []
    ∧ results (query_papers_in_date_range (tbl st') "cs.LG" "2023-01-01" "2023-01-16") = [it].
Proof.
  exists (loaded [tilde_paper]), (cat_item (build_core tilde_paper) "2023-01-15" "cs.LG").
  split_and!; vm_compute; reflexivity.
Qed.

(** The bounds of the range are compared with whole sort keys.  When the
    start and the end date are shorter than the stored date, an item is
    returned whose date sorts behind the end date. *)
Example date_range_shorter_bounds :
  ∃ st' it,
    main_loop RefParser.fromisoformat init_state [unparsed_date_paper] = Ok st'
    ∧ tbl st' !! ("CATEGORY#cs.LG", "2023-01 15#2301.00002") = Some it
    ∧ PK it = "CATEGORY#cs.LG"
    ∧ SK it = "2023-01 15" +:+ "#" +:+ "2301.00002"
    ∧ ¬ str_le "2023-01 15" "2023-01"
    ∧ results (query_papers_in_date_range (tbl st') "cs.LG" "2023" "2023-01") = [it].
Proof.
  exists (loaded [unparsed_date_paper]),
    (cat_item (build_core unparsed_date_paper) "2023-01 15" "cs.LG").
  split_and!; try (vm_compute; reflexivity).
  rewrite str_le_compare. vm_compute. intros H. by apply H.
Qed.

Lemma load_item_count_witness :
  (∀ s e, RefParser.fromisoformat s = Raise e → e = ValueError)
  ∧ norm_id example_paper ≠ ""
  ∧ norm_title example_paper ≠ ""
  ∧ norm_published example_paper ≠ ""
  ∧ let st := init_state in
    let p := example_paper in
    let c := build_core p in
    ∃ st' date_str,
      main_step RefParser.fromisoformat st p = Ok st'
      ∧ written st' =
          written st
          ++ [paper_item c date_str]
          ++ ((λ cat, cat_item c date_str cat) <$> or_empty (r_categories p))
          ++ ((λ author, a_item c date_str author) <$> or_empty (r_authors p))
          ++ ((λ kw, k_item c date_str kw)
                <$> extract_keywords (safe_str (r_abstract p)) 10)
      ∧ length (written st') =
          length (written st)
          + (1 + length (or_empty (r_categories p)) + length (or_empty (r_authors p))
             + length (extract_keywords (safe_str (r_abstract p)) 10))
      ∧ stat "paper_id_items" (stats st') = stat "paper_id_items" (stats st) + 1
      ∧ stat "category_items" (stats st')
        = stat "category_items" (stats st) + length (or_empty (r_categories p))
      ∧ stat "author_items" (stats st')
        = stat "author_items" (stats st) + length (or_empty (r_authors p))
      ∧ stat "keyword_items" (stats st')
        = stat "keyword_items" (stats st)
          + length (extract_keywords (safe_str (r_abstract p)) 10)
      ∧ total_papers st' = S (total_papers st).
Proof.
  split; [ref_raises|]. do 3 (split; [vm_compute; discriminate|]).
  apply (load_item_count RefParser.fromisoformat);
    [ref_raises | vm_compute; discriminate..].
Defined.

Lemma reload_idempotent_witness :
  (∀ s e, RefParser.fromisoformat s = Raise e → e = ValueError)
  ∧ ∃ st1 st2,
      main_step RefParser.fromisoformat init_state example_paper = Ok st1
      ∧ main_step RefParser.fromisoformat st1 example_paper = Ok st2
      ∧ tbl st2 = tbl st1
      ∧ size (tbl st2) = size (tbl st1).
Proof.
  split; [ref_raises|].
  apply (reload_idempotent RefParser.fromisoformat). ref_raises.
Defined.

(** A record without a title. *)
Lemma skipped_record_ignored_witness :
  let p := {| r_arxiv_id := Some "2301.00002"; r_id := None; r_title := Some "";
              r_authors := Some ["A. Lee"]; r_abstract := None;
              r_categories := Some ["cs.LG"];
              r_published := Some "2023-01-16T09:00:00Z";
              r_updated := None; r_date := None |} in
  ((truthy (r_arxiv_id p) = false ∧ truthy (r_id p) = false)
   ∨ truthy (r_title p) = false
   ∨ (truthy (r_published p) = false ∧ truthy (r_updated p) = false
      ∧ truthy (r_date p) = false))
  ∧ (∀ st, main_step RefParser.fromisoformat st p = Ok st)
  ∧ (∀ st before after,
       main_loop RefParser.fromisoformat st (before ++ p :: after)
       = main_loop RefParser.fromisoformat st (before ++ after)).
Proof.
  intros p. split; [right; left; reflexivity|].
  apply (skipped_record_ignored RefParser.fromisoformat p).
  right. left. reflexivity.
Defined.

Lemma date_range_results_witness :
  let t := tbl (loaded [example_paper]) in
  let category := "cs.LG" in
  let start_date := "2023-01-01" in
  let end_date := "2023-01-31" in
  well_keyed t
  ∧ let env := query_papers_in_date_range t category start_date end_date in
    count env = length (results env)
    ∧ (∀ it, it ∈ results env →
         t !! item_key it = Some it ∧ PK it = "CATEGORY#" +:+ category)
    ∧ (∀ it d id,
         t !! item_key it = Some it →
         SK it = d +:+ "#" +:+ id →
         String.length d = String.length start_date →
         String.length d = String.length end_date →
         it ∈ results env
         ↔ PK it = "CATEGORY#" +:+ category
           ∧ str_le start_date d ∧ str_le d end_date
           ∧ (d = end_date → str_le id "zzzzzzz"))
    ∧ (truthy (Some category) = true → truthy (Some start_date) = true →
       truthy (Some end_date) = true →
       route_search t (Some category) (Some start_date) (Some end_date)
       = RespPapers 200 (results env) (count env)).
Proof.
  intros t category start_date end_date.
  assert (Hwk : well_keyed t).
  { apply (bool_decide_unpack (well_keyed t)). vm_compute. exact I. }
  split; [exact Hwk|]. exact (date_range_results t category start_date end_date Hwk).
Defined.

Lemma get_paper_by_id_outcome_witness :
  let papers := [example_paper] in
  let id := "2301.00001" in
  (∀ s e, RefParser.fromisoformat s = Raise e → e = ValueError)
  ∧ (∀ t, length (results (get_paper_by_id t id)) ≤ 1
          ∧ count (get_paper_by_id t id) = length (results (get_paper_by_id t id)))
  ∧ (∀ t, (∀ k it, t !! k = Some it → GSI2PK it ≠ Some ("PAPER#" +:+ id)) →
          results (get_paper_by_id t id) = []
          ∧ count (get_paper_by_id t id) = 0
          ∧ route_paper t id = RespError 404 "not found")
  ∧ ∃ st',
      main_loop RefParser.fromisoformat init_state papers = Ok st'
      ∧ ((∃ p, p ∈ papers ∧ skipped p = false ∧ norm_id p = id) →
         ∃ it,
           tbl st' !! ("PAPER#" +:+ id, "A") = Some it
           ∧ (∀ k it', tbl st' !! k = Some it' → PK it' = "PAPER#" +:+ id →
                k = ("PAPER#" +:+ id, "A") ∧ it' = it)
           ∧ results (get_paper_by_id (tbl st') id) = [it]
           ∧ count (get_paper_by_id (tbl st') id) = 1
           ∧ route_paper (tbl st') id = RespItem 200 it)
      ∧ ((¬ ∃ p, p ∈ papers ∧ skipped p = false ∧ norm_id p = id) →
         results (get_paper_by_id (tbl st') id) = []
         ∧ count (get_paper_by_id (tbl st') id) = 0
         ∧ route_paper (tbl st') id = RespError 404 "not found").
Proof.
  intros papers id. split; [ref_raises|].
  apply (get_paper_by_id_outcome RefParser.fromisoformat). ref_raises.
Defined.

Lemma stored_published_is_source_string_witness :
  let papers := [example_paper] in
  (∀ s e, RefParser.fromisoformat s = Raise e → e = ValueError)
  ∧ ∃ st',
      main_loop RefParser.fromisoformat init_state papers = Ok st'
      ∧ ∀ k it, tbl st' !! k = Some it →
          ∃ p date_str,
            p ∈ papers
            ∧ iso_to_date RefParser.fromisoformat (norm_published p) = Ok date_str
            ∧ core it = build_core p
            ∧ published (core it)
              = safe_str (py_or (py_or (r_published p) (r_updated p)) (r_date p))
            ∧ ((SK it = "A" ∧ GSI2SK it = Some date_str)
               ∨ SK it = date_str +:+ "#" +:+ arxiv_id (core it)).
Proof.
  intros papers. split; [ref_raises|].
  apply (stored_published_is_source_string RefParser.fromisoformat). ref_raises.
Defined.


(** * Further properties *)

(** ** Reading a partition newest first *)

Section Newest.

Context {A : Type} (sk : A → string).

Local Instance sk_le_total : Total (λ x y : A, str_le (sk x) (sk y)).
Proof. intros x y. apply (total String.le). Qed.

Local Instance sk_le_trans : Transitive (λ x y : A, str_le (sk x) (sk y)).
Proof. intros x y z. apply (transitivity (R := String.le)). Qed.

Lemma ascending_sorted l :
  StronglySorted (λ x y, str_le (sk x) (sk y)) (ascending sk l).
Proof. apply StronglySorted_merge_sort; apply _. Qed.




End Newest.

(** ** The other queries *)





Lemma StronglySorted_impl_elem {A} (R R' : relation A) l :
  StronglySorted R l →
  (∀ x y, x ∈ l → y ∈ l → R x y → R' x y) →
  StronglySorted R' l.
Proof.
  intros Hs HR. rewrite <-(list_fmap_id l).
  by apply (StronglySorted_fmap_elem R R' id).
Qed.

Lemma index1_is_a_item it c d pk :
  it ∈ project c d → GSI1PK it = Some pk →
  ∃ author, author ∈ authors c ∧ it = a_item c d author ∧ pk = "AUTHOR#" +:+ author.
Proof.
  intros Hin%elem_of_project Hpk.
  destruct Hin as [->|[(x & _ & ->)|[(x & Hx & ->)|(x & _ & ->)]]];
    cbn in Hpk; try discriminate.
  injection Hpk as <-. eauto.
Qed.


Lemma author_key_is_a_item it c d author :
  it ∈ project c d → PK it = "AUTHOR#" +:+ author → it = a_item c d author.
Proof.
  intros Hin%elem_of_project Hpk.
  destruct Hin as [->|[(x & _ & ->)|[(x & _ & ->)|(x & _ & ->)]]];
    cbn in Hpk; try discriminate.
  by apply (inj (String.app "AUTHOR#")) in Hpk as ->.
Qed.

Section QueriesOfLoad.

Variable fromisoformat : string → pyres datetime.

Hypothesis fromisoformat_raises : ∀ s e, fromisoformat s = Raise e → e = ValueError.

(** X2.  After a load into the empty table [query_papers_by_author] returns
    only author items of accepted records that list the author, it returns
    an item under the sort key [<date>#<id>] of every accepted record that
    lists the author, and the items come in ascending order of sort key. *)
Theorem papers_by_author_of_load (papers : list RawPaper) (author_name : string) :
  ∃ st',
    main_loop fromisoformat init_state papers = Ok st'
    ∧ let env := query_papers_by_author (tbl st') author_name in
      count env = length (results env)
      ∧ (∀ it, it ∈ results env →
           PK it = "AUTHOR#" +:+ author_name
           ∧ author_name ∈ authors (core it)
           ∧ ∃ p, p ∈ papers ∧ skipped p = false ∧ core it = build_core p)
      ∧ (∀ p date_str, p ∈ papers → skipped p = false →
           iso_to_date fromisoformat (norm_published p) = Ok date_str →
           author_name ∈ or_empty (r_authors p) →
           ∃ it, it ∈ results env ∧ SK it = date_str +:+ "#" +:+ norm_id p)
      ∧ StronglySorted (λ a b, str_le (SK a) (SK b)) (results env).
Proof.
  destruct (load_table fromisoformat fromisoformat_raises papers)
    as (st' & Hload & Hwk & Hitems & Hkeys).
  exists st'. split; [done|]. cbv zeta. unfold query_papers_by_author.
  cbn [results count].
  assert (Hshape : ∀ it, it ∈ query_index GSI1PK GSI1SK (tbl st') ("AUTHOR#" +:+ author_name) →
            ∃ p d, p ∈ papers ∧ skipped p = false ∧ author_name ∈ authors (build_core p)
                   ∧ it = a_item (build_core p) d author_name).
  { intros it ([k Hk] & Hpk & _)%elem_of_query_index.
    destruct (Hitems k it Hk) as (p & d & Hp & Hs & _ & Hin).
    destruct (index1_is_a_item _ _ _ _ Hin Hpk) as (a & Ha & -> & Heq).
    apply (inj (String.app "AUTHOR#")) in Heq as <-. eauto 10. }
  split_and!.
  - done.
  - intros it (p & d & Hp & Hs & Ha & ->)%Hshape. cbn. eauto 10.
  - intros p d Hp Hs Hd Ha.
    destruct (Hkeys p d (a_item (build_core p) d author_name) Hp Hs Hd) as [it Hit].
    { apply elem_of_project. right. right. left. eauto. }
    exists it.
    destruct (Hitems _ it Hit) as (p' & d' & _ & _ & _ & Hin).
    pose proof (Hwk _ _ Hit) as Hk. injection Hk as Hpk Hsk.
    split; [|by rewrite <-Hsk].
    apply elem_of_query_index. split; [eauto|].
    rewrite (author_key_is_a_item _ _ _ author_name Hin) by done. cbn. eauto.
  - eapply StronglySorted_impl_elem.
    + apply (ascending_sorted (λ it : Item, default "" (GSI1SK it))).
    + intros x y (p & d & _ & _ & _ & ->)%Hshape (p' & d' & _ & _ & _ & ->)%Hshape.
      done.
Qed.


End QueriesOfLoad.

(** ** The numbers of the closing report *)

Lemma length_remove_dups_le {A} `{EqDecision A} (l : list A) :
  length (remove_dups l) ≤ length l.
Proof.
  induction l as [|x l IH]; cbn; [done|].
  destruct (decide_rel _ x l); cbn; lia.
Qed.

Lemma length_remove_dups_NoDup {A} `{EqDecision A} (l : list A) :
  length (remove_dups l) = length l ↔ NoDup l.
Proof.
  induction l as [|x l IH]; cbn.
  - split; [constructor | done].
  - rewrite NoDup_cons. pose proof (length_remove_dups_le l).
    destruct (decide_rel _ x l); cbn.
    + split; [lia | tauto].
    + rewrite <-IH. split; [intros; split; [done | lia] | intros [_ ?]; lia].
Qed.

Lemma dom_put_all (t : table) l :
  dom (put_all t l) =@{gset (string * string)} dom t ∪ list_to_set (item_key <$> l).
Proof.
  induction l as [|x l IH] using rev_ind.
  - cbn. set_solver.
  - rewrite put_all_snoc, dom_insert_L, IH, fmap_app, list_to_set_app_L. cbn. set_solver.
Qed.

(** The table holds one item per distinct key written. *)
Lemma size_put_all_empty l :
  size (put_all ∅ l) = length (remove_dups (item_key <$> l)).
Proof.
  rewrite <-(size_dom (D := gset (string * string))), dom_put_all, dom_empty_L,
    (left_id_L ∅ (∪)).
  rewrite <-(size_list_to_set (C := gset (string * string))
               (remove_dups (item_key <$> l))) by apply NoDup_remove_dups.
  f_equal. apply set_eq. intros k. by rewrite !elem_of_list_to_set, elem_of_remove_dups.
Qed.

Lemma length_projection fromisoformat p :
  (∀ s e, fromisoformat s = Raise e → e = ValueError) →
  length (projection fromisoformat p)
  = if skipped p then 0
    else 1 + length (or_empty (r_categories p)) + length (or_empty (r_authors p))
         + length (extract_keywords (safe_str (r_abstract p)) 10).
Proof.
  intros Hraises. unfold projection. destruct (skipped p); [done|].
  destruct (iso_to_date_total fromisoformat Hraises (norm_published p)) as [d ->].
  apply length_project.
Qed.

Section Totals.

Variable fromisoformat : string → pyres datetime.

Hypothesis fromisoformat_raises : ∀ s e, fromisoformat s = Raise e → e = ValueError.

(** The counters after one iteration. *)
Lemma main_step_counts st p :
  ∃ st',
    main_step fromisoformat st p = Ok st'
    ∧ stat "paper_id_items" (stats st')
      = stat "paper_id_items" (stats st) + (if skipped p then 0 else 1)
    ∧ total_papers st' = total_papers st + (if skipped p then 0 else 1)
    ∧ total_items st' = total_items st + length (projection fromisoformat p)
    ∧ written st' = written st ++ projection fromisoformat p
    ∧ tbl st' = put_all (tbl st) (projection fromisoformat p).
Proof.
  unfold projection. destruct (skipped p) eqn:Hs.
  - exists st. rewrite main_step_skipped, app_nil_r by done. cbn. split_and!; (done || lia).
  - destruct (iso_to_date_total fromisoformat fromisoformat_raises (norm_published p))
      as [d Hd].
    rewrite Hd. eexists. split; [by apply main_step_accepted|].
    unfold total_items. cbn [tbl written stats total_papers].
    rewrite length_project.
    rewrite !stat_iter_same.
    rewrite !(stat_iter_other "keyword_items") by done.
    rewrite !stat_iter_same.
    rewrite !(stat_iter_other "author_items") by done.
    rewrite !stat_iter_same.
    rewrite !(stat_iter_other "category_items") by done.
    rewrite stat_incr_same, !stat_incr_other by done.
    split_and!; (done || lia).
Qed.

Lemma main_loop_counts papers st :
  ∃ st',
    main_loop fromisoformat st papers = Ok st'
    ∧ stat "paper_id_items" (stats st')
      = stat "paper_id_items" (stats st) + length (filter (λ p, skipped p = false) papers)
    ∧ total_papers st'
      = total_papers st + length (filter (λ p, skipped p = false) papers)
    ∧ total_items st'
      = total_items st + length (papers ≫= projection fromisoformat)
    ∧ written st' = written st ++ (papers ≫= projection fromisoformat)
    ∧ tbl st' = put_all (tbl st) (papers ≫= projection fromisoformat).
Proof.
  revert st. induction papers as [|p papers IH]; intros st.
  - exists st. cbn. rewrite app_nil_r. split_and!; (done || lia).
  - destruct (main_step_counts st p) as (st1 & H1 & Hp1 & Hn1 & Hi1 & Hw1 & Ht1).
    destruct (IH st1) as (st2 & H2 & Hp2 & Hn2 & Hi2 & Hw2 & Ht2).
    exists st2. unfold main_loop in *. cbn [for_each]. rewrite H1.
    cbn [mbind pyres_bind]. rewrite H2, bind_cons, length_app, put_all_app, app_assoc.
    rewrite filter_cons.
    split_and!; [done|..| congruence | congruence];
      destruct (decide (skipped p = false)) as [Hs|Hs];
      try rewrite Hs in *; try (apply not_false_is_true in Hs; rewrite Hs in *);
      cbn [length]; lia.
Qed.

(** X4.  After a load into the empty table the paper count is the number
    of records that are not skipped, the paper counter equals it, and the
    item total is the number of [put_item] calls, the sum of
    [1 + |categories| + |authors| + |keywords|] over those records.  The
    table never holds more items than that total, and holds as many exactly
    when no two calls wrote the same key. *)
Theorem load_totals (papers : list RawPaper) :
  ∃ st',
    main_loop fromisoformat init_state papers = Ok st'
    ∧ total_papers st' = length (filter (λ p, skipped p = false) papers)
    ∧ stat "paper_id_items" (stats st') = total_papers st'
    ∧ total_items st' = length (written st')
    ∧ total_items st'
      = sum_list ((λ p, 1 + length (or_empty (r_categories p))
                          + length (or_empty (r_authors p))
                          + length (extract_keywords (safe_str (r_abstract p)) 10))
                    <$> filter (λ p, skipped p = false) papers)
    ∧ size (tbl st') ≤ total_items st'
    ∧ (size (tbl st') = total_items st' ↔ NoDup (item_key <$> written st')).
Proof.
  destruct (main_loop_counts papers init_state)
    as (st' & Hload & Hp & Hn & Hi & Hw & Ht).
  exists st'.
  change (stat "paper_id_items" (stats init_state)) with 0 in Hp.
  change (total_items init_state) with 0 in Hi.
  cbn in Hp, Hn, Hi, Hw, Ht.
  assert (Hlen : total_items st' = length (written st')) by (rewrite Hw; exact Hi).
  split_and!; [done|done|lia|done| | |].
  - rewrite Hi. clear -fromisoformat_raises. induction papers as [|p papers IH]; [done|].
    rewrite bind_cons, length_app, IH, filter_cons,
      (length_projection _ _ fromisoformat_raises).
    destruct (decide (skipped p = false)) as [Hs|Hs].
    + rewrite Hs. cbn. lia.
    + apply not_false_is_true in Hs. rewrite Hs. cbn. lia.
  - rewrite Hlen, Ht, Hw, size_put_all_empty.
    etrans; [apply length_remove_dups_le|]. by rewrite length_fmap.
  - rewrite Hlen, Ht, Hw, size_put_all_empty, <-length_remove_dups_NoDup.
    by rewrite length_fmap.
Qed.

(** X5.  When every record of the input is skipped, the empty input
    included, the load leaves the table empty and the closing report of
    [main] raises [ZeroDivisionError] at its first per-paper average.  With
    an accepted record the report is produced: the factor is items over
    papers and at least one, and the paper items per paper are exactly
    one. *)
Theorem report_division (papers : list RawPaper) :
  (Forall (λ p, skipped p = true) papers →
   ∃ st',
     main_loop fromisoformat init_state papers = Ok st'
     ∧ tbl st' = ∅
     ∧ report st' = Raise (OtherError "ZeroDivisionError")
     ∧ main fromisoformat papers = Raise (OtherError "ZeroDivisionError"))
  ∧ ((∃ p, p ∈ papers ∧ skipped p = false) →
     ∃ r,
       main fromisoformat papers = Ok r
       ∧ loaded_papers r = length (filter (λ p, skipped p = false) papers)
       ∧ 0 < loaded_papers r
       ∧ factor r = {| numer := created_items r; denom := loaded_papers r |}
       ∧ loaded_papers r ≤ created_items r
       ∧ paper_avg r = {| numer := loaded_papers r; denom := loaded_papers r |}).
Proof.
  destruct (main_loop_counts papers init_state)
    as (st' & Hload & Hp & Hn & Hi & Hw & Ht).
  change (stat "paper_id_items" (stats init_state)) with 0 in Hp.
  change (total_items init_state) with 0 in Hi.
  cbn in Hp, Hn, Hi, Hw, Ht. split.
  - intros Hall. exists st'.
    assert (Hnone : filter (λ p, skipped p = false) papers = []).
    { apply filter_none. intros p Hp'. rewrite Forall_forall in Hall.
      rewrite (Hall p Hp'). done. }
    rewrite Hnone in Hn. cbn in Hn.
    assert (Hrep : report st' = Raise (OtherError "ZeroDivisionError")).
    { unfold report, truediv. by rewrite Hn. }
    split_and!; [done| |done|].
    + rewrite Ht. replace (papers ≫= projection fromisoformat) with (@nil Item); [done|].
      symmetry. clear -Hall. induction Hall as [|p papers Hs _ IH]; [done|].
      rewrite bind_cons, <-IH. unfold projection. by rewrite Hs.
    + unfold main. rewrite Hload. exact Hrep.
  - intros (p & Hin & Hs).
    assert (Hpos : 0 < total_papers st').
    { rewrite Hn. assert (p ∈ filter (λ p, skipped p = false) papers) as Hf
        by (by apply list_elem_of_filter).
      destruct (filter _ papers); [by apply elem_of_nil in Hf | cbn; lia]. }
    assert (Hz : (total_papers st' =? 0) = false) by (apply Nat.eqb_neq; lia).
    eexists. unfold main. rewrite Hload. cbn [mbind pyres_bind].
    unfold report, truediv. rewrite Hz. cbn [mbind pyres_bind].
    split; [reflexivity|]. cbn [loaded_papers created_items factor paper_avg].
    split_and!; [done | done | done | | by rewrite Hp, <-Hn].
    unfold total_items. rewrite Hp, <-Hn. lia.
Qed.

End Totals.

(** ** What a load leaves alone *)

Lemma put_all_is_Some (t : table) l k : is_Some (t !! k) → is_Some (put_all t l !! k).
Proof.
  intros Hk. induction l as [|x l IH] using rev_ind; [done|].
  rewrite put_all_snoc, lookup_insert_is_Some.
  destruct (decide (item_key x = k)); [by left | by right].
Qed.

Lemma put_all_lookup_other (t : table) l k :
  (∀ it, it ∈ l → item_key it ≠ k) → put_all t l !! k = t !! k.
Proof.
  induction l as [|x l IH] using rev_ind; intros Hl; [done|].
  rewrite put_all_snoc, lookup_insert_ne.
  - apply IH. intros it Hit. apply Hl, elem_of_app. by left.
  - apply Hl, elem_of_app. right. by apply list_elem_of_singleton.
Qed.

Lemma category_key_is_cat_item it c d cat :
  it ∈ project c d → PK it = "CATEGORY#" +:+ cat →
  cat ∈ categories c ∧ it = cat_item c d cat.
Proof.
  intros Hin%elem_of_project Hpk.
  destruct Hin as [->|[(x & Hx & ->)|[(x & _ & ->)|(x & _ & ->)]]];
    cbn in Hpk; try discriminate.
  by apply (inj (String.app "CATEGORY#")) in Hpk as ->.
Qed.

Section Frame.

Variable fromisoformat : string → pyres datetime.

Hypothesis fromisoformat_raises : ∀ s e, fromisoformat s = Raise e → e = ValueError.

(** X6.  A load never removes a key: a key of the table before the load is
    a key after it.  An item of the table after the load is the item that
    was there before or one the load wrote under that key, and a key that
    none of the written items has holds what it held. *)
Theorem load_keeps_keys (st : LoadState) (papers : list RawPaper) :
  ∃ st' new,
    main_loop fromisoformat st papers = Ok st'
    ∧ written st' = written st ++ new
    ∧ (∀ k, is_Some (tbl st !! k) → is_Some (tbl st' !! k))
    ∧ (∀ k it, tbl st' !! k = Some it →
         tbl st !! k = Some it ∨ (it ∈ new ∧ k = item_key it))
    ∧ (∀ k, (∀ it, it ∈ new → item_key it ≠ k) → tbl st' !! k = tbl st !! k).
Proof.
  destruct (main_loop_projection fromisoformat fromisoformat_raises papers st)
    as (st' & Hload & Ht & Hw).
  exists st', (papers ≫= projection fromisoformat). rewrite Ht.
  split_and!; [done..| | |].
  - intros k. apply put_all_is_Some.
  - intros k it. apply put_all_lookup_inv.
  - intros k. apply put_all_lookup_other.
Qed.

(** X7.  A category item outlives the listing it came from: after a record
    is loaded, loading further records, none of which lists the category,
    leaves the record's item in that category's partition with the payload
    of the first load, also when a later record has the same id and
    date. *)
Theorem dropped_category_stays
    (st : LoadState) (p : RawPaper) (later : list RawPaper) (cat date_str : string) :
  skipped p = false →
  iso_to_date fromisoformat (norm_published p) = Ok date_str →
  cat ∈ or_empty (r_categories p) →
  Forall (λ q, cat ∉ or_empty (r_categories q)) later →
  ∃ st',
    main_loop fromisoformat st (p :: later) = Ok st'
    ∧ tbl st' !! ("CATEGORY#" +:+ cat, date_str +:+ "#" +:+ norm_id p)
      = Some (cat_item (build_core p) date_str cat).
Proof.
  intros Hs Hd Hcat Hlater.
  destruct (main_loop_projection fromisoformat fromisoformat_raises (p :: later) st)
    as (st' & Hload & Ht & _).
  exists st'. split; [done|]. rewrite Ht, bind_cons, put_all_app.
  change ("CATEGORY#" +:+ cat, date_str +:+ "#" +:+ norm_id p)
    with (item_key (cat_item (build_core p) date_str cat)).
  rewrite put_all_lookup_other.
  - unfold projection. rewrite Hs, Hd.
    destruct (put_all_lookup_elem (tbl st) (project (build_core p) date_str)
                (cat_item (build_core p) date_str cat)) as (it' & Hit' & Hin & Hk).
    { apply elem_of_project. right. left. eauto. }
    rewrite Hit'. f_equal. injection Hk as Hpk Hsk.
    by destruct (category_key_is_cat_item _ _ _ cat Hin Hpk) as [_ ->].
  - intros it (q & Hit & Hq)%list_elem_of_bind Hk.
    apply elem_of_projection in Hit as (_ & d' & _ & Hit).
    injection Hk as Hpk Hsk.
    destruct (category_key_is_cat_item _ _ _ cat Hit Hpk) as [Hin _].
    rewrite Forall_forall in Hlater. by apply (Hlater q Hq).
Qed.

End Frame.

(** ** The derived date *)

Section DateLength.

Variable fromisoformat : string → pyres datetime.

Hypothesis fromisoformat_raises : ∀ s e, fromisoformat s = Raise e → e = ValueError.

Hypothesis fromisoformat_valid : ∀ s dt, fromisoformat s = Ok dt → valid_date dt.

(** X8.  For a non-empty source string [iso_to_date] returns a date of one
    to ten characters.  When the string parses, the date has seven to ten
    characters, and ten exactly for the years from 1000 on; when it does not
    parse and has at most ten characters, it comes back unchanged. *)
Theorem iso_to_date_length (iso_str : string) :
  iso_str ≠ "" →
  ∃ d, iso_to_date fromisoformat iso_str = Ok d
       ∧ 1 ≤ String.length d ≤ 10
       ∧ (∀ dt, fromisoformat (replace_Z iso_str) = Ok dt →
            7 ≤ String.length d ∧ (String.length d = 10 ↔ 1000 ≤ year dt))
       ∧ (fromisoformat (replace_Z iso_str) = Raise ValueError →
          String.length iso_str ≤ 10 → d = iso_str).
Proof.
  intros Hne. unfold iso_to_date.
  destruct (fromisoformat (replace_Z iso_str)) as [dt|e] eqn:Hp.
  - destruct (fromisoformat_valid _ _ Hp) as (Hy & _).
    destruct (length_dec_year _ Hy) as [Hl H4].
    eexists. split; [done|]. rewrite length_strftime_ymd.
    split_and!; [lia | lia | | done].
    intros ? [= <-]. split; [lia|]. rewrite <- H4. lia.
  - apply fromisoformat_raises in Hp as ->. eexists. split; [done|].
    rewrite length_str_take. split_and!.
    + destruct iso_str; [done|]. cbn [String.length]. lia.
    + lia.
    + done.
    + intros _ Hlen. clear -Hlen. revert Hlen. generalize 10.
      induction iso_str as [|c s IH]; intros [|n] Hlen; cbn in *; try done; try lia.
      f_equal. apply IH. lia.
Qed.

End DateLength.

(** ** The shape of tokens *)

Lemma raw_word_shape_snoc w c :
  raw_word_shape w = true → Chars.is_word c = true →
  raw_word_shape (w +:+ String c "") = true.
Proof.
  destruct w as [|x w]; [done|]. rewrite str_app_cons. cbn [raw_word_shape].
  rewrite list_ascii_app, forallb_app. cbn [String.list_ascii_of_string forallb].
  intros [-> ->]%andb_true_iff ->. done.
Qed.

Lemma findall_words_shape cur text t :
  (∀ w, cur = Some w → raw_word_shape w = true) →
  t ∈ findall_words cur text → raw_word_shape t = true.
Proof.
  revert cur. induction text as [|c rest IH]; intros cur Hcur; cbn [findall_words].
  - destruct cur as [w|]; [|by intros ?%elem_of_nil].
    intros ->%list_elem_of_singleton. by apply Hcur.
  - destruct cur as [w|].
    + destruct (Chars.is_word c) eqn:Hc.
      * apply IH. intros w' [= <-]. apply raw_word_shape_snoc; auto.
      * intros [->|Hin]%elem_of_cons; [by apply Hcur|].
        revert Hin. by apply IH.
    + destruct (Chars.is_alpha c) eqn:Hc.
      * apply IH. intros w' [= <-]. cbn. by rewrite Hc.
      * by apply IH.
Qed.

Lemma lower_char_alpha c :
  Chars.is_alpha c = true → Chars.is_lower (Chars.lower_char c) = true.
Proof. destruct c as [[] [] [] [] [] [] [] []]; try reflexivity; discriminate. Qed.

Lemma lower_char_word c :
  Chars.is_word c = true →
  Chars.is_lower (Chars.lower_char c) || Chars.is_digit (Chars.lower_char c)
  || Chars.is_hyphen (Chars.lower_char c) = true.
Proof. destruct c as [[] [] [] [] [] [] [] []]; try reflexivity; discriminate. Qed.

Lemma lower_shape w : raw_word_shape w = true → word_shape (lower w) = true.
Proof.
  destruct w as [|c r]; [done|]. cbn [raw_word_shape lower word_shape].
  intros [Hc Hr]%andb_true_iff. rewrite lower_char_alpha by done. cbn [andb].
  induction r as [|x r IH]; [done|]. cbn in Hr |- *.
  apply andb_true_iff in Hr as [Hx Hr]. rewrite lower_char_word by done. by apply IH.
Qed.

(** X10.  Every token, and so every extracted keyword, is non-empty, begins
    with a lower-case letter and consists of lower-case letters, digits and
    hyphens. *)
Theorem tokens_shape (text : string) (topk : nat) :
  (∀ t, t ∈ tokenize text → word_shape t = true)
  ∧ (∀ kw, kw ∈ extract_keywords text topk → word_shape kw = true).
Proof.
  assert (Htok : ∀ t, t ∈ tokenize text → word_shape t = true).
  { unfold tokenize. intros t (w & -> & Hw)%list_elem_of_fmap.
    apply lower_shape. eapply (findall_words_shape None); [|exact Hw].
    intros w' [=]. }
  split; [done|]. intros kw Hkw.
  destruct (extract_keywords_spec text topk) as (ranked & Heq & _ & Hin & _).
  rewrite Heq in Hkw. pose proof (subseteq_take topk ranked kw Hkw) as Hr.
  apply Hin in Hr as [Hr _]. clear Hkw. rename Hr into Hkw.
  by apply Htok.
Qed.

(** ** Tokens do not span separators *)

Lemma is_alpha_is_word c : Chars.is_alpha c = true → Chars.is_word c = true.
Proof. unfold Chars.is_word. by intros ->. Qed.

Lemma findall_words_sep cur a c b :
  Chars.is_word c = false →
  findall_words cur (a +:+ String c b) = findall_words cur a ++ findall_words None b.
Proof.
  intros Hc. revert cur. induction a as [|x a IH]; intros cur.
  - change ("" +:+ String c b) with (String c b).
    destruct cur as [w|]; cbn [findall_words]; [by rewrite Hc|].
    destruct (Chars.is_alpha c) eqn:Ha; [|done].
    apply is_alpha_is_word in Ha. congruence.
  - rewrite str_app_cons. cbn [findall_words].
    destruct cur as [w|].
    + destruct (Chars.is_word x); [apply IH|]. by rewrite IH.
    + destruct (Chars.is_alpha x); apply IH.
Qed.

(** X11.  A character outside letters, digits and hyphen ends a token: the
    tokens of a text around such a character are the tokens of the part
    before it followed by the tokens of the part behind it. *)
Theorem tokenize_sep (a b : string) (c : ascii) :
  Chars.is_word c = false →
  tokenize (a +:+ String c b) = tokenize a ++ tokenize b.
Proof.
  intros Hc. unfold tokenize. by rewrite findall_words_sep, fmap_app.
Qed.

(** ** The order of the input *)

(** With pairwise distinct keys every item of the batch is in the table. *)
Lemma put_all_empty_lookup l k it :
  NoDup (item_key <$> l) →
  put_all ∅ l !! k = Some it ↔ it ∈ l ∧ k = item_key it.
Proof.
  intros Hnd. split.
  - intros [Hk|?]%put_all_lookup_inv; [by rewrite lookup_empty in Hk | done].
  - intros [Hin ->]. destruct (put_all_lookup_elem ∅ l it Hin) as (it' & Hit' & Hin' & Hk).
    rewrite Hit'. f_equal.
    apply list_elem_of_lookup in Hin as [i Hi], Hin' as [j Hj].
    assert (i = j) as ->; [|congruence].
    eapply NoDup_lookup; [exact Hnd | |]; rewrite list_lookup_fmap.
    + by rewrite Hi.
    + rewrite Hj. cbn. by rewrite Hk.
Qed.

Section Order.

Variable fromisoformat : string → pyres datetime.

Hypothesis fromisoformat_raises : ∀ s e, fromisoformat s = Raise e → e = ValueError.

(** X12.  Loading the records of an input in another order writes the same
    items, and the table has the same keys and the same size; when no two
    written items share a key, the two tables are equal. *)
Theorem load_order (papers papers' : list RawPaper) :
  papers ≡ₚ papers' →
  ∃ st1 st2,
    main_loop fromisoformat init_state papers = Ok st1
    ∧ main_loop fromisoformat init_state papers' = Ok st2
    ∧ dom (tbl st1) =@{gset (string * string)} dom (tbl st2)
    ∧ size (tbl st1) = size (tbl st2)
    ∧ written st1 ≡ₚ written st2
    ∧ (NoDup (item_key <$> written st1) → tbl st1 = tbl st2).
Proof.
  intros Hperm.
  destruct (main_loop_projection fromisoformat fromisoformat_raises papers init_state)
    as (st1 & H1 & Ht1 & Hw1).
  destruct (main_loop_projection fromisoformat fromisoformat_raises papers' init_state)
    as (st2 & H2 & Ht2 & Hw2).
  cbn in Ht1, Ht2, Hw1, Hw2.
  assert (HL : papers ≫= projection fromisoformat ≡ₚ papers' ≫= projection fromisoformat)
    by (by rewrite Hperm).
  assert (Hdom : dom (tbl st1) =@{gset (string * string)} dom (tbl st2)).
  { rewrite Ht1, Ht2, !dom_put_all. f_equal. apply set_eq. intros k.
    rewrite !elem_of_list_to_set. by rewrite HL. }
  exists st1, st2. split_and!; [done..| | |].
  - by rewrite <-!(size_dom (D := gset (string * string))), Hdom.
  - by rewrite Hw1, Hw2.
  - rewrite Hw1, Ht1, Ht2. intros Hnd. apply map_eq. intros k. apply option_eq. intros it.
    rewrite !put_all_empty_lookup; [by rewrite HL|by rewrite <-HL|done].
Qed.

End Order.

(** ** Routing *)

Lemma prefix_app (p s : string) : String.prefix p (p +:+ s) = true.
Proof.
  induction p as [|c p IH]; [by destruct s|]. rewrite str_app_cons. cbn.
  destruct (ascii_dec c c); [done | congruence].
Qed.

Lemma prefix_app_same (p a s : string) :
  String.prefix (p +:+ a) (p +:+ s) = String.prefix a s.
Proof.
  induction p as [|c p IH]; [done|]. rewrite !str_app_cons. cbn.
  destruct (ascii_dec c c); [done | congruence].
Qed.

Lemma str_drop_app (p s : string) : str_drop (String.length p) (p +:+ s) = s.
Proof. induction p as [|c p IH]; [by destruct s|]. by rewrite str_app_cons. Qed.

Lemma count_slash_app (a b : string) :
  count_slash (a +:+ b) = count_slash a + count_slash b.
Proof.
  induction a as [|c a IH]; [done|]. rewrite str_app_cons. cbn. rewrite IH. lia.
Qed.

(** A separator that begins with a slash does not occur in a text without
    slashes. *)
Lemma before_first_no_slash (sep s : string) :
  count_slash s = 0 → before_first (String "/" sep) s = s.
Proof.
  induction s as [|c s IH]; [done|]. cbn [count_slash before_first String.prefix].
  destruct (ascii_dec "/" c) as [<-|Hne]; [cbn; lia|].
  intros Hs. f_equal. apply IH. destruct (Ascii.eqb c "/"); cbn in Hs; lia.
Qed.

Lemma split_1_prefixed (sep s : string) :
  split_1 sep (sep +:+ s) = Ok (before_first sep s).
Proof.
  unfold split_1. destruct sep as [|c sep]; [by destruct s|].
  rewrite str_app_cons. cbn [after_first]. rewrite <-str_app_cons, prefix_app.
  by rewrite str_drop_app.
Qed.

Lemma prefix_no_slash (p s : string) :
  count_slash s = 0 → 0 < count_slash p → String.prefix p s = false.
Proof.
  revert s. induction p as [|c p IH]; intros s Hs Hp; [cbn in Hp; lia|].
  destruct s as [|x s]; [done|]. cbn in *.
  destruct (ascii_dec c x) as [<-|]; [|done].
  destruct (Ascii.eqb c "/"); cbn in *; [lia|]. apply IH; lia.
Qed.

Section ApiProps.

Variable unquote : string → string.
Variable to_int : string → pyres Z.
Variable str_exn : exn → string.

(** X13.  The route test for [/papers/{arxiv_id}] comes before the one for
    [/papers/search] and accepts that path: [GET /papers/search] is answered
    by the paper lookup for the id [search], with 404 [not found] on a table
    without such a paper, whatever the query string.  The only client error
    [do_GET] ever answers is the [missing category] of the recent route. *)
Theorem search_route_shadowed (t : table) (qs : gmap string string) :
  do_GET unquote to_int str_exn t "/papers/search" qs = route_paper t (unquote "search")
  ∧ ((∀ k it, t !! k = Some it → GSI2PK it ≠ Some ("PAPER#" +:+ unquote "search")) →
     do_GET unquote to_int str_exn t "/papers/search" qs = RespError 404 "not found")
  ∧ (∀ path status message,
       do_GET unquote to_int str_exn t path qs = RespError status message → status = 400 →
       message = "missing category").
Proof.
  split_and!.
  - reflexivity.
  - intros Hnone. change (do_GET unquote to_int str_exn t "/papers/search" qs)
      with (route_paper t (unquote "search")).
    unfold route_paper. by rewrite (query_index_none _ _ _ _ Hnone).
  - intros path status message. unfold do_GET, handle.
    destruct (decide (path = "/papers/recent")) as [->|_].
    { destruct (to_int _) as [n|e]; cbn [mbind pyres_bind]; [|congruence].
      destruct (negb (truthy _)); [congruence|].
      destruct (checked_limit n); cbn [mbind pyres_bind]; congruence. }
    destruct (String.prefix "/papers/author/" path).
    { destruct (split_1 _ path); cbn [mbind pyres_bind]; congruence. }
    destruct (String.prefix "/papers/" path && (count_slash path =? 2) && _ && _) eqn:Hthird.
    { destruct (split_1 _ path) as [raw|e]; cbn [mbind pyres_bind]; [|congruence].
      unfold route_paper. destruct (query_index _ _ _ _); congruence. }
    destruct (decide (path = "/papers/search")) as [->|_]; [discriminate Hthird|].
    destruct (String.prefix "/papers/keyword/" path).
    { destruct (split_1 _ path); cbn [mbind pyres_bind]; [|congruence].
      destruct (to_int _) as [n|e]; cbn [mbind pyres_bind]; [|congruence].
      destruct (checked_limit n); cbn [mbind pyres_bind]; congruence. }
    congruence.
Qed.

(** X14.  A path [/papers/<id>] whose id contains a slash, and does not
    begin with [author/] or [keyword/], is answered with 404
    [route not found]. *)
Theorem slash_id_not_routed (t : table) (qs : gmap string string) (id : string) :
  0 < count_slash id →
  String.prefix "author/" id = false →
  String.prefix "keyword/" id = false →
  do_GET unquote to_int str_exn t ("/papers/" +:+ id) qs = RespError 404 "route not found".
Proof.
  intros Hslash Ha Hk. unfold do_GET, handle.
  assert (Hcount : count_slash ("/papers/" +:+ id) = 2 + count_slash id)
    by (by rewrite count_slash_app).
  assert (Hauthor : String.prefix "/papers/author/" ("/papers/" +:+ id) = false)
    by (by rewrite (prefix_app_same "/papers/" "author/")).
  assert (Hkeyword : String.prefix "/papers/keyword/" ("/papers/" +:+ id) = false)
    by (by rewrite (prefix_app_same "/papers/" "keyword/")).
  destruct (decide ("/papers/" +:+ id = "/papers/recent")) as [Heq|_].
  { apply (inj (String.app "/papers/") id "recent") in Heq as ->. cbn in Hslash. lia. }
  rewrite Hauthor, Hkeyword, Hcount.
  replace (2 + count_slash id =? 2) with false by (symmetry; apply Nat.eqb_neq; lia).
  rewrite andb_false_r. cbn [andb].
  destruct (decide ("/papers/" +:+ id = "/papers/search")) as [Heq|_]; [|done].
  apply (inj (String.app "/papers/") id "search") in Heq as ->. cbn in Hslash. lia.
Qed.

(** X15.  The routes of the HTTP front end answer with what the query
    functions return: the paper route with the first result of
    [get_paper_by_id] or 404, the author route with the results of
    [query_papers_by_author], the keyword and recent routes, for a limit of
    at least one, with the results of [query_papers_by_keyword] and
    [query_recent_in_category].  The path argument is unquoted, and has no
    slash. *)
Theorem routes_agree_with_queries (t : table) (qs : gmap string string) :
  (∀ id, count_slash id = 0 → id ≠ "recent" →
     do_GET unquote to_int str_exn t ("/papers/" +:+ id) qs
     = match results (get_paper_by_id t (unquote id)) with
       | it :: _ => RespItem 200 it
       | [] => RespError 404 "not found"
       end)
  ∧ (∀ name, count_slash name = 0 →
       do_GET unquote to_int str_exn t ("/papers/author/" +:+ name) qs
       = RespPapers 200 (results (query_papers_by_author t (unquote name)))
                        (count (query_papers_by_author t (unquote name))))
  ∧ (∀ kw limit, count_slash kw = 0 →
       to_int (default "20" (qs !! "limit")) = Ok limit → (1 ≤ limit)%Z →
       do_GET unquote to_int str_exn t ("/papers/keyword/" +:+ kw) qs
       = RespPapers 200
           (results (query_papers_by_keyword t (unquote kw) (Z.to_nat limit)))
           (count (query_papers_by_keyword t (unquote kw) (Z.to_nat limit))))
  ∧ (∀ category limit, qs !! "category" = Some category → category ≠ "" →
       to_int (default "20" (qs !! "limit")) = Ok limit → (1 ≤ limit)%Z →
       do_GET unquote to_int str_exn t "/papers/recent" qs
       = RespPapers 200
           (results (query_recent_in_category t category (Z.to_nat limit)))
           (count (query_recent_in_category t category (Z.to_nat limit)))).
Proof.
  assert (Hlimit : ∀ limit, (1 ≤ limit)%Z → checked_limit limit = Ok (Z.to_nat limit)).
  { intros limit Hl. unfold checked_limit.
    by replace (limit <? 1)%Z with false by (symmetry; apply Z.ltb_ge; lia). }
  split_and!.
  - intros id Hslash Hne. unfold do_GET, handle.
    destruct (decide ("/papers/" +:+ id = "/papers/recent")) as [Heq|_].
    { by apply (inj (String.app "/papers/") id "recent") in Heq. }
    rewrite (prefix_app_same "/papers/" "author/"), (prefix_app_same "/papers/" "keyword/").
    rewrite (prefix_no_slash "author/"), (prefix_no_slash "keyword/")
      by (done || (cbn; lia)).
    rewrite prefix_app, count_slash_app, Hslash.
    change (count_slash "/papers/" + 0 =? 2) with true. cbn [andb negb].
    rewrite split_1_prefixed, (before_first_no_slash "papers/") by done.
    cbn [mbind pyres_bind]. unfold route_paper, get_paper_by_id. cbn [results].
    by destruct (query_index _ _ _ _).
  - intros name Hslash. unfold do_GET, handle.
    destruct (decide ("/papers/author/" +:+ name = "/papers/recent")) as [Heq|_].
    { apply (f_equal (String.prefix "/papers/author/")) in Heq.
      rewrite prefix_app in Heq. discriminate Heq. }
    rewrite prefix_app, split_1_prefixed, (before_first_no_slash "papers/author/") by done.
    done.
  - intros kw limit Hslash Hint Hl. unfold do_GET, handle.
    destruct (decide ("/papers/keyword/" +:+ kw = "/papers/recent")) as [Heq|_].
    { apply (f_equal (String.prefix "/papers/keyword/")) in Heq.
      rewrite prefix_app in Heq. discriminate Heq. }
    destruct (decide ("/papers/keyword/" +:+ kw = "/papers/search")) as [Heq|_].
    { apply (f_equal (String.prefix "/papers/keyword/")) in Heq.
      rewrite prefix_app in Heq. discriminate Heq. }
    replace (String.prefix "/papers/author/" ("/papers/keyword/" +:+ kw)) with false
      by reflexivity.
    rewrite prefix_app. cbn [negb]. rewrite andb_false_r.
    rewrite split_1_prefixed, (before_first_no_slash "papers/keyword/") by done.
    cbn [mbind pyres_bind]. rewrite Hint. cbn [mbind pyres_bind].
    rewrite Hlimit by done. done.
  - intros category limit Hcat Hne Hint Hl. unfold do_GET, handle.
    destruct (decide ("/papers/recent" = "/papers/recent")); [|done].
    rewrite Hint, Hcat. cbn [mbind pyres_bind truthy].
    apply String.eqb_neq in Hne. rewrite Hne. cbn [negb].
    rewrite Hlimit by done. done.
Qed.

End ApiProps.

Section DataDirProps.

Variable abspath : string → string.
Variable path_exists : string → bool.
Variable path_isdir : string → bool.
Variable cwd_data : string.

Lemma first_dir_Some ds d :
  first_dir abspath path_exists path_isdir ds = Some d →
  ∃ c, c ∈ ds ∧ d = abspath c ∧ path_exists d = true ∧ path_isdir d = true.
Proof.
  induction ds as [|c ds IH]; [done|]. cbn.
  destruct (path_exists (abspath c) && path_isdir (abspath c)) eqn:Hc.
  - intros [= <-]. apply andb_true_iff in Hc as [? ?]. exists c. split; [by left | done].
  - intros (c' & ? & ?)%IH. exists c'. split; [by right | done].
Qed.

Lemma first_dir_None ds c :
  first_dir abspath path_exists path_isdir ds = None → c ∈ ds →
  path_exists (abspath c) && path_isdir (abspath c) = false.
Proof.
  induction ds as [|x ds IH]; [by intros _ ?%elem_of_nil|]. cbn.
  destruct (path_exists (abspath x) && path_isdir (abspath x)) eqn:Hx; [done|].
  intros Hnone [->|Hin]%elem_of_cons; [done | by apply IH].
Qed.

(** X16.  [resolve_data_dir] returns the given directory when it is an
    existing directory.  Whatever it returns exists; it is one of the
    candidates and a directory, or it is [data] under the working directory
    and not a directory, since as a directory it is found as a candidate.
    It raises only [FileNotFoundError], and only if that path does not
    exist. *)
Theorem resolve_data_dir_result (base_dir : string) :
  abspath "data" = cwd_data →
  (path_exists (abspath base_dir) = true → path_isdir (abspath base_dir) = true →
   resolve_data_dir abspath path_exists path_isdir cwd_data base_dir
   = Ok (abspath base_dir))
  ∧ (∀ d, resolve_data_dir abspath path_exists path_isdir cwd_data base_dir = Ok d →
       path_exists d = true
       ∧ ((path_isdir d = true ∧ ∃ c, c ∈ candidates base_dir ∧ d = abspath c)
          ∨ (path_isdir d = false ∧ d = cwd_data)))
  ∧ (∀ e, resolve_data_dir abspath path_exists path_isdir cwd_data base_dir = Raise e →
       e = OtherError "FileNotFoundError" ∧ path_exists cwd_data = false).
Proof.
  intros Hdata. unfold resolve_data_dir. split_and!.
  - intros He Hd. cbn. by rewrite He, Hd.
  - intros d. destruct (first_dir _ _ _ _) as [d'|] eqn:Hf.
    + intros [= <-]. apply first_dir_Some in Hf as (c & Hc & Heq & He & Hd).
      split; [done|]. left. split; [done|]. by exists c.
    + destruct (path_exists cwd_data) eqn:He; [|done]. intros [= <-].
      split; [done|]. right. split; [|done].
      pose proof (first_dir_None _ "data" Hf) as Hc. rewrite Hdata, He in Hc.
      apply Hc. unfold candidates. set_solver.
  - intros e. destruct (first_dir _ _ _ _); [done|].
    destruct (path_exists cwd_data); [done|]. by intros [= <-].
Qed.

End DataDirProps.


(** ** Key attributes *)

Lemma skipped_false p :
  skipped p = false → norm_id p ≠ "" ∧ norm_title p ≠ "" ∧ norm_published p ≠ "".
Proof.
  unfold skipped. rewrite !orb_false_iff, !String.eqb_neq. tauto.
Qed.

Section Keys.

Variable fromisoformat : string → pyres datetime.

Hypothesis fromisoformat_raises : ∀ s e, fromisoformat s = Raise e → e = ValueError.

(** X9.  No key attribute the loader writes for an accepted record is the
    empty string: neither [PK] nor [SK] nor, where present, the partition
    and sort key of a secondary index. *)
Theorem written_keys_nonempty (st : LoadState) (p : RawPaper) :
  skipped p = false →
  ∃ st' new,
    main_step fromisoformat st p = Ok st'
    ∧ written st' = written st ++ new
    ∧ ∀ it a, it ∈ new → a ∈ key_attributes it → a ≠ Some "".
Proof.
  intros Hs. destruct (skipped_false p Hs) as (_ & _ & Hpub).
  destruct (iso_to_date_nonempty fromisoformat fromisoformat_raises _ Hpub)
    as (d & Hd & Hdne).
  eexists _, (project (build_core p) d).
  split; [by apply main_step_accepted|]. split; [done|].
  assert (Hsk : ∀ x, d +:+ "#" +:+ x ≠ "").
  { intros x. apply str_app_nonempty_r. done. }
  intros it a Hit Ha.
  apply elem_of_project in Hit as [->|[(x & _ & ->)|[(x & _ & ->)|(x & _ & ->)]]];
    unfold key_attributes in Ha; cbn in Ha;
    repeat (apply elem_of_cons in Ha as [->|Ha]); try (by apply elem_of_nil in Ha);
    try done; intros [= Heq]; try discriminate Heq; try (by apply Hsk in Heq);
    by apply Hdne.
Qed.

End Keys.

(** ** The further properties on concrete input *)

(** The search request of the front end, with all its parameters, against
    the table of the §8 example: the request is taken for a paper lookup,
    while the handler written for it would answer with the category item. *)
Example search_request_not_found :
  let t := tbl (loaded [example_paper]) in
  let qs : gmap string string :=
    <["category" := "cs.LG"]> (<["start" := "2023-01-01"]> (<["end" := "2023-12-31"]> ∅)) in
  do_GET RefLib.unquote RefLib.to_int RefLib.str_exn t "/papers/search" qs
  = RespError 404 "not found"
  ∧ route_search t (qs !! "category") (qs !! "start") (qs !! "end")
    = RespPapers 200 [cat_item (build_core example_paper) "2023-01-15" "cs.LG"] 1.
Proof. split; vm_compute; reflexivity. Qed.

(** A load that accepts nothing ends in the division by zero. *)
Example empty_input_report :
  main RefParser.fromisoformat [] = Raise (OtherError "ZeroDivisionError").
Proof. reflexivity. Qed.


Lemma papers_by_author_of_load_witness :
  let papers := [example_paper] in
  let author_name := "A. Lee" in
  (∀ s e, RefParser.fromisoformat s = Raise e → e = ValueError)
  ∧ ∃ st',
      main_loop RefParser.fromisoformat init_state papers = Ok st'
      ∧ let env := query_papers_by_author (tbl st') author_name in
        count env = length (results env)
        ∧ (∀ it, it ∈ results env →
             PK it = "AUTHOR#" +:+ author_name
             ∧ author_name ∈ authors (core it)
             ∧ ∃ p, p ∈ papers ∧ skipped p = false ∧ core it = build_core p)
        ∧ (∀ p date_str, p ∈ papers → skipped p = false →
             iso_to_date RefParser.fromisoformat (norm_published p) = Ok date_str →
             author_name ∈ or_empty (r_authors p) →
             ∃ it, it ∈ results env ∧ SK it = date_str +:+ "#" +:+ norm_id p)
        ∧ StronglySorted (λ a b, str_le (SK a) (SK b)) (results env).
Proof.
  intros papers author_name. split; [ref_raises|].
  apply (papers_by_author_of_load RefParser.fromisoformat). ref_raises.
Defined.


Lemma load_totals_witness :
  let papers := [example_paper] in
  (∀ s e, RefParser.fromisoformat s = Raise e → e = ValueError)
  ∧ ∃ st',
      main_loop RefParser.fromisoformat init_state papers = Ok st'
      ∧ total_papers st' = length (filter (λ p, skipped p = false) papers)
      ∧ stat "paper_id_items" (stats st') = total_papers st'
      ∧ total_items st' = length (written st')
      ∧ total_items st'
        = sum_list ((λ p, 1 + length (or_empty (r_categories p))
                            + length (or_empty (r_authors p))
                            + length (extract_keywords (safe_str (r_abstract p)) 10))
                      <$> filter (λ p, skipped p = false) papers)
      ∧ size (tbl st') ≤ total_items st'
      ∧ (size (tbl st') = total_items st' ↔ NoDup (item_key <$> written st')).
Proof.
  intros papers. split; [ref_raises|].
  apply (load_totals RefParser.fromisoformat). ref_raises.
Defined.

Lemma report_division_witness :
  let papers := [example_paper] in
  (∀ s e, RefParser.fromisoformat s = Raise e → e = ValueError)
  ∧ (Forall (λ p, skipped p = true) papers →
     ∃ st',
       main_loop RefParser.fromisoformat init_state papers = Ok st'
       ∧ tbl st' = ∅
       ∧ report st' = Raise (OtherError "ZeroDivisionError")
       ∧ main RefParser.fromisoformat papers = Raise (OtherError "ZeroDivisionError"))
  ∧ ((∃ p, p ∈ papers ∧ skipped p = false) →
     ∃ r,
       main RefParser.fromisoformat papers = Ok r
       ∧ loaded_papers r = length (filter (λ p, skipped p = false) papers)
       ∧ 0 < loaded_papers r
       ∧ factor r = {| numer := created_items r; denom := loaded_papers r |}
       ∧ loaded_papers r ≤ created_items r
       ∧ paper_avg r = {| numer := loaded_papers r; denom := loaded_papers r |}).
Proof.
  intros papers. split; [ref_raises|].
  apply (report_division RefParser.fromisoformat). ref_raises.
Defined.

Lemma load_keeps_keys_witness :
  let st := loaded [tilde_paper] in
  let papers := [example_paper] in
  (∀ s e, RefParser.fromisoformat s = Raise e → e = ValueError)
  ∧ ∃ st' new,
      main_loop RefParser.fromisoformat st papers = Ok st'
      ∧ written st' = written st ++ new
      ∧ (∀ k, is_Some (tbl st !! k) → is_Some (tbl st' !! k))
      ∧ (∀ k it, tbl st' !! k = Some it →
           tbl st !! k = Some it ∨ (it ∈ new ∧ k = item_key it))
      ∧ (∀ k, (∀ it, it ∈ new → item_key it ≠ k) → tbl st' !! k = tbl st !! k).
Proof.
  intros st papers. split; [ref_raises|].
  apply (load_keeps_keys RefParser.fromisoformat). ref_raises.
Defined.

Lemma dropped_category_stays_witness :
  let st := init_state in
  let p := example_paper in
  let later := [example_paper_uncategorised] in
  let cat := "cs.LG" in
  let date_str := "2023-01-15" in
  (∀ s e, RefParser.fromisoformat s = Raise e → e = ValueError)
  ∧ skipped p = false
  ∧ iso_to_date RefParser.fromisoformat (norm_published p) = Ok date_str
  ∧ cat ∈ or_empty (r_categories p)
  ∧ Forall (λ q, cat ∉ or_empty (r_categories q)) later
  ∧ ∃ st',
      main_loop RefParser.fromisoformat st (p :: later) = Ok st'
      ∧ tbl st' !! ("CATEGORY#" +:+ cat, date_str +:+ "#" +:+ norm_id p)
        = Some (cat_item (build_core p) date_str cat).
Proof.
  intros st p later cat date_str.
  assert (Hs : skipped p = false) by reflexivity.
  assert (Hd : iso_to_date RefParser.fromisoformat (norm_published p) = Ok date_str)
    by (vm_compute; reflexivity).
  assert (Hc : cat ∈ or_empty (r_categories p)) by (apply list_elem_of_singleton; reflexivity).
  assert (Hl : Forall (λ q, cat ∉ or_empty (r_categories q)) later).
  { apply Forall_cons. split; [apply not_elem_of_nil | apply Forall_nil_2]. }
  split; [ref_raises|]. split; [exact Hs|]. split; [exact Hd|].
  split; [exact Hc|]. split; [exact Hl|].
  apply (dropped_category_stays RefParser.fromisoformat); [ref_raises | done..].
Defined.

Lemma iso_to_date_length_witness :
  let iso_str := "2023-01-15T10:30:00Z" in
  (∀ s e, RefParser.fromisoformat s = Raise e → e = ValueError)
  ∧ (∀ s dt, RefParser.fromisoformat s = Ok dt → valid_date dt)
  ∧ iso_str ≠ ""
  ∧ ∃ d, iso_to_date RefParser.fromisoformat iso_str = Ok d
         ∧ 1 ≤ String.length d ≤ 10
         ∧ (∀ dt, RefParser.fromisoformat (replace_Z iso_str) = Ok dt →
              7 ≤ String.length d ∧ (String.length d = 10 ↔ 1000 ≤ year dt))
         ∧ (RefParser.fromisoformat (replace_Z iso_str) = Raise ValueError →
            String.length iso_str ≤ 10 → d = iso_str).
Proof.
  intros iso_str. split; [ref_raises|]. split; [exact RefParser_valid|].
  split; [discriminate|].
  apply (iso_to_date_length RefParser.fromisoformat);
    [ref_raises | exact RefParser_valid | discriminate].
Defined.

Lemma written_keys_nonempty_witness :
  let st := init_state in
  let p := example_paper in
  (∀ s e, RefParser.fromisoformat s = Raise e → e = ValueError)
  ∧ skipped p = false
  ∧ ∃ st' new,
      main_step RefParser.fromisoformat st p = Ok st'
      ∧ written st' = written st ++ new
      ∧ ∀ it a, it ∈ new → a ∈ key_attributes it → a ≠ Some "".
Proof.
  intros st p. split; [ref_raises|]. split; [reflexivity|].
  apply (written_keys_nonempty RefParser.fromisoformat); [ref_raises | reflexivity].
Defined.

Lemma tokenize_sep_witness :
  let a := "Graph neural" in
  let b := "networks" in
  let c := " "%char in
  Chars.is_word c = false
  ∧ tokenize (a +:+ String c b) = tokenize a ++ tokenize b.
Proof.
  intros a b c. split; [reflexivity|]. apply (tokenize_sep a b c). reflexivity.
Defined.

Lemma load_order_witness :
  let papers := [example_paper; tilde_paper] in
  let papers' := [tilde_paper; example_paper] in
  (∀ s e, RefParser.fromisoformat s = Raise e → e = ValueError)
  ∧ papers ≡ₚ papers'
  ∧ ∃ st1 st2,
      main_loop RefParser.fromisoformat init_state papers = Ok st1
      ∧ main_loop RefParser.fromisoformat init_state papers' = Ok st2
      ∧ dom (tbl st1) =@{gset (string * string)} dom (tbl st2)
      ∧ size (tbl st1) = size (tbl st2)
      ∧ written st1 ≡ₚ written st2
      ∧ (NoDup (item_key <$> written st1) → tbl st1 = tbl st2).
Proof.
  intros papers papers'. split; [ref_raises|].
  assert (Hp : papers ≡ₚ papers') by apply Permutation_swap.
  split; [exact Hp|].
  apply (load_order RefParser.fromisoformat); [ref_raises | exact Hp].
Defined.

Lemma reload_file_idempotent_witness :
  let st := init_state in
  let papers := [example_paper; tilde_paper] in
  (∀ s e, RefParser.fromisoformat s = Raise e → e = ValueError)
  ∧ ∃ st1 st2,
      main_loop RefParser.fromisoformat st papers = Ok st1
      ∧ main_loop RefParser.fromisoformat st1 papers = Ok st2
      ∧ tbl st2 = tbl st1.
Proof.
  intros st papers. split; [ref_raises|].
  apply (reload_file_idempotent RefParser.fromisoformat). ref_raises.
Defined.

Lemma slash_id_not_routed_witness :
  let t := tbl (loaded [example_paper]) in
  let qs : gmap string string := ∅ in
  let id := "hep-th/9901001" in
  0 < count_slash id
  ∧ String.prefix "author/" id = false
  ∧ String.prefix "keyword/" id = false
  ∧ do_GET RefLib.unquote RefLib.to_int RefLib.str_exn t ("/papers/" +:+ id) qs
    = RespError 404 "route not found".
Proof.
  intros t qs id.
  assert (Hs : 0 < count_slash id) by (vm_compute; lia).
  split; [exact Hs|]. split; [reflexivity|]. split; [reflexivity|].
  apply (slash_id_not_routed RefLib.unquote RefLib.to_int RefLib.str_exn t qs id);
    [exact Hs | reflexivity | reflexivity].
Defined.

Lemma resolve_data_dir_result_witness :
  let abspath := RefLib.abspath in
  let path_exists := RefLib.path_exists in
  let path_isdir := RefLib.path_exists in
  let cwd_data := "/app/data" in
  let base_dir := "/srv/transit" in
  abspath "data" = cwd_data
  ∧ (path_exists (abspath base_dir) = true → path_isdir (abspath base_dir) = true →
     resolve_data_dir abspath path_exists path_isdir cwd_data base_dir
     = Ok (abspath base_dir))
  ∧ (∀ d, resolve_data_dir abspath path_exists path_isdir cwd_data base_dir = Ok d →
       path_exists d = true
       ∧ ((path_isdir d = true ∧ ∃ c, c ∈ candidates base_dir ∧ d = abspath c)
          ∨ (path_isdir d = false ∧ d = cwd_data)))
  ∧ (∀ e, resolve_data_dir abspath path_exists path_isdir cwd_data base_dir = Raise e →
       e = OtherError "FileNotFoundError" ∧ path_exists cwd_data = false).
Proof.
  intros abspath path_exists path_isdir cwd_data base_dir.
  split; [reflexivity|].
  apply (resolve_data_dir_result abspath path_exists path_isdir cwd_data base_dir).
  reflexivity.
Defined.


